(** * documentmanager.py: a shallow embedding and its verified properties

    The program ingests a PDF: it reads the file's metadata, asks the
    operator for four annotations, inserts one row into [documents] and
    then, page by page, renders the page to a JPEG file, reads the file
    back, encodes it and inserts one row into [document_pages].

    Python values are modelled by [Py.value], dictionaries by stdpp's
    [gmap string _], the collaborators (file system, PyMuPDF, console,
    Supabase client) by a record of oracles, and the effects of
    [process_document] by a state-and-exception monad that also yields
    the chronological list of effects it performed.  The embedding
    covers [get_file_info], [_determine_file_type] and
    [process_document]; the menu loop and [list_documents] only print. *)

From stdpp Require Import gmap strings list fin_maps pretty.
From Stdlib Require Import ZArith Ascii.
From Stdlib.Strings Require Import Byte.

Open Scope string_scope.
Open Scope Z_scope.

(** ** Python values and string built-ins *)

Module Py.

Inductive value :=
| VNone
| VBool (b : bool)
| VInt (z : Z)
| VStr (s : string).

(** Raised objects.  [Exception] stands for instances of [Exception]
    and its subclasses, the ones an [except Exception] clause catches;
    [BaseException] for the others (KeyboardInterrupt, SystemExit). *)
Inductive exn :=
| Exception (cls msg : string)
| BaseException (cls msg : string).

(** [str(e)] *)
Definition exn_str (e : exn) : string :=
  match e with Exception _ m | BaseException _ m => m end.

(** [str(v)], as an f-string renders a value *)
Definition str (v : value) : string :=
  match v with
  | VNone => "None"
  | VBool true => "True"
  | VBool false => "False"
  | VInt z => pretty z
  | VStr s => s
  end.

(** [bool(s)] for a string: the empty string is the only falsy one *)
Definition truthy (s : string) : bool :=
  match s with "" => false | _ => true end.

(** [a or b] on strings *)
Definition or_ (a b : string) : string := if truthy a then a else b.

Definition lower_ascii (c : ascii) : ascii :=
  let n := N_of_ascii c in
  if ((65 <=? n) && (n <=? 90))%N then ascii_of_N (n + 32) else c.

(** [s.lower()], on the ASCII letters *)
Fixpoint lower (s : string) : string :=
  match s with
  | "" => ""
  | String c s' => String (lower_ascii c) (lower s')
  end.

(** [s[n:]] for [0 <= n] *)
Fixpoint slice_from (n : nat) (s : string) : string :=
  match n, s with
  | O, _ => s
  | S _, "" => ""
  | S n', String _ s' => slice_from n' s'
  end.

(** [s[:n]] for [0 <= n] *)
Fixpoint slice_to (n : nat) (s : string) : string :=
  match n, s with
  | O, _ => ""
  | S _, "" => ""
  | S n', String c s' => String c (slice_to n' s')
  end.

Fixpoint rfind_from (c : ascii) (s : string) (i last : Z) : Z :=
  match s with
  | "" => last
  | String a s' => rfind_from c s' (i + 1) (if Ascii.eqb a c then i else last)
  end.

(** [s.rfind(c)]: the highest index of [c] in [s], or [-1] *)
Definition rfind (s : string) (c : ascii) : Z := rfind_from c s 0 (-1).

(** [len(s)] *)
Definition len (s : string) : Z := Z.of_nat (String.length s).

(** [range(n)] *)
Definition range (n : nat) : list Z := map Z.of_nat (seq 0 n).

End Py.

Export Py.

(** A dictionary with string keys. *)
Abbreviation dict := (gmap string value).

(** ** pathlib, for POSIX paths (CPython up to 3.13) *)

Module pathlib.

Fixpoint split_slash (s : string) : list string :=
  match s with
  | "" => [""]
  | String c s' =>
      if Ascii.eqb c "/" then "" :: split_slash s'
      else match split_slash s' with
           | h :: t => String c h :: t
           | [] => [String c ""]
           end
  end.

(** The components of a path: empty components and ["."] are dropped
    when the path is parsed. *)
Definition parts (p : string) : list string :=
  List.filter (fun x => negb (String.eqb x "" || String.eqb x "."))
              (split_slash p).

(** [Path(p).name]: the final component, [''] when there is none *)
Definition name (p : string) : string := List.last (parts p) "".

(** [Path(p).suffix]:
    [i = name.rfind('.'); name[i:] if 0 < i < len(name) - 1 else ''] *)
Definition suffix (p : string) : string :=
  let nm := name p in
  let i := rfind nm "." in
  if (0 <? i) && (i <? len nm - 1) then slice_from (Z.to_nat i) nm else "".

(** [Path(p).stem]:
    [i = name.rfind('.'); name[:i] if 0 < i < len(name) - 1 else name] *)
Definition stem (p : string) : string :=
  let nm := name p in
  let i := rfind nm "." in
  if (0 <? i) && (i <? len nm - 1) then slice_to (Z.to_nat i) nm else nm.

(** [str(Path(d) / f)] for a relative, single-component [f] *)
Definition joinpath (d f : string) : string := d ++ "/" ++ f.

End pathlib.

(** ** base64.b64encode followed by [.decode('utf-8')] *)

Module base64.

Definition alphabet : string :=
  "ABCDEFGHIJKLMNOPQRSTUVWXYZabcdefghijklmnopqrstuvwxyz0123456789+/".

Definition digit (n : N) : ascii :=
  match String.get (N.to_nat (n mod 64)) alphabet with
  | Some c => c
  | None => "="%char
  end.

Fixpoint b64encode (bs : list byte) : string :=
  match bs with
  | [] => ""
  | [a] =>
      let n := (Byte.to_N a * 65536)%N in
      String (digit (n / 262144)) (String (digit (n / 4096)) "==")
  | [a; b] =>
      let n := (Byte.to_N a * 65536 + Byte.to_N b * 256)%N in
      String (digit (n / 262144)) (String (digit (n / 4096))
        (String (digit (n / 64)) "="))
  | a :: b :: c :: rest =>
      let n := (Byte.to_N a * 65536 + Byte.to_N b * 256 + Byte.to_N c)%N in
      String (digit (n / 262144)) (String (digit (n / 4096))
        (String (digit (n / 64)) (String (digit n) (b64encode rest))))
  end.

End base64.

(** ** The collaborators and the effects of a run *)

Abbreviation bytes := (list byte).

(** [os.stat_result], the fields the program reads.  The two timestamps
    are opaque instants; the program only renders them as text. *)
Record stat_result := {
  st_size : Z;
  st_ctime : Z;
  st_mtime : Z
}.

(** PyMuPDF.  A [Pixmap] is known by what [pix.save(path)] does: the
    JPEG bytes it writes or the error it raises; a page by what
    [page.get_pixmap()] returns or raises; a document is its pages. *)
Record Pixmap := { save : exn + bytes }.
Record Page := { get_pixmap : exn + Pixmap }.
Abbreviation Document := (list Page).

(** The query builder of the Supabase client:
    [table(t).insert(d)], [.select(c)], [.update(d)], [.delete()]. *)
Inductive query :=
| Insert (data : dict)
| Select (columns : string)
| Update (data : dict)
| Delete.

Record request := { table : string; op : query }.

(** What [.execute()] gives: [result.data], or the error it raises. *)
Abbreviation reply := (exn + list dict)%type.

(** One effect of a run, as an outside observer sees it. *)
Inductive event :=
| Printed (line : string)                  (* print(line) *)
| Prompted (prompt : string)               (* input(prompt) *)
| MadeDir (path : string)                  (* Path(path).mkdir(exist_ok=True) *)
| Opened (path : string)                   (* fitz.open(path) returned *)
| Closed                                   (* doc.close() *)
| Saved (path : string) (content : bytes)  (* pix.save(path) wrote a file *)
| ReadBack (path : string)                 (* open(path, 'rb').read() *)
| Executed (r : request) (res : reply).    (* ....execute() *)

(** How a statement ends: normally with a value, or by raising. *)
Inductive result (A : Type) :=
| Ok (a : A)
| Raise (e : exn).
Arguments Ok {A} a.
Arguments Raise {A} e.

Section Effects.

(** The state of the remote backend. *)
Variable backend : Type.

(** What the program runs against. *)
Record collaborators := {
  os_stat : string -> exn + stat_result;  (* os.stat(path) *)
  isoformat : Z -> string;  (* datetime.fromtimestamp(t).isoformat() *)
  mkdir : string -> option exn;  (* the error of mkdir(exist_ok=True) *)
  fitz_open : string -> exn + Document;   (* fitz.open(path) *)
  execute : backend -> request -> reply * backend
}.

(** What a run changes: the lines waiting on standard input, the files
    written under the working directory, the backend. *)
Record state := {
  stdin : list string;
  disk : gmap string bytes;
  db : backend
}.

(** A computation: from a state to a result, the state it leaves and
    the effects it performed, oldest first. *)
Definition M (A : Type) : Type := state -> result A * state * list event.

Definition ret {A} (a : A) : M A := fun s => (Ok a, s, []).

Definition raise {A} (e : exn) : M A := fun s => (Raise e, s, []).

Definition bind {A B} (m : M A) (f : A -> M B) : M B :=
  fun s =>
    match m s with
    | (Ok a, s1, t1) => let '(r, s2, t2) := f a s1 in (r, s2, (t1 ++ t2)%list)
    | (Raise e, s1, t1) => (Raise e, s1, t1)
    end.

(** [try: m  except Exception as e: h e] *)
Definition try_except {A} (m : M A) (h : exn -> M A) : M A :=
  fun s =>
    match m s with
    | (Raise (Exception c msg), s1, t1) =>
        let '(r, s2, t2) := h (Exception c msg) s1 in (r, s2, (t1 ++ t2)%list)
    | other => other
    end.

Definition emit (e : event) : M unit := fun s => (Ok tt, s, [e]).

(** [for x in xs: body x] *)
Fixpoint for_each {A} (xs : list A) (body : A -> M unit) : M unit :=
  match xs with
  | [] => ret tt
  | x :: xs' => bind (body x) (fun _ => for_each xs' body)
  end.

End Effects.

Arguments ret {backend A} a.
Arguments raise {backend A} e.
Arguments bind {backend A B} m f.
Arguments try_except {backend A} m h.
Arguments emit {backend} e.
Arguments for_each {backend A} xs body.
Arguments os_stat {backend} c.
Arguments isoformat {backend} c.
Arguments mkdir {backend} c.
Arguments fitz_open {backend} c.
Arguments execute {backend} c.
Arguments stdin {backend} s.
Arguments disk {backend} s.
Arguments db {backend} s.
Arguments Build_state {backend}.

Notation "x <- m ;; k" := (bind m (fun x => k))
  (at level 100, m at next level, right associativity).
Notation "m ;;; k" := (bind m (fun _ => k))
  (at level 100, right associativity).

(** A dictionary display [{k1: v1, ..., kn: vn}]: a later entry
    replaces an earlier one with the same key. *)
Definition dict_literal {V} (kvs : list (string * V)) : gmap string V :=
  fold_left (fun m kv => <[kv.1 := kv.2]> m) kvs ∅.

(** The line feed of ["\n"]. *)
Definition nl : string := String (ascii_of_N 10) "".

(** ** The primitives the program calls *)

Section Primitives.

Context {backend : Type}.
Variable env : collaborators backend.

Definition print (line : string) : M backend unit := emit (Printed line).

(** [input(prompt)]: writes the prompt and takes the next line, or
    raises [EOFError] at the end of the input. *)
Definition input (prompt : string) : M backend string :=
  fun s =>
    match stdin s with
    | [] => (Raise (Exception "EOFError" "EOF when reading a line"), s,
             [Prompted prompt])
    | line :: rest =>
        (Ok line, {| stdin := rest; disk := disk s; db := db s |},
         [Prompted prompt])
    end.

(** [os.path.exists(path)]: whether [os.stat(path)] succeeds *)
Definition os_path_exists (path : string) : M backend bool :=
  ret (match os_stat env path with inr _ => true | inl _ => false end).

(** [Path(path).stat()] *)
Definition path_stat (path : string) : M backend stat_result :=
  match os_stat env path with
  | inr st => ret st
  | inl e => raise e
  end.

(** [Path(path).mkdir(exist_ok=True)] *)
Definition path_mkdir (path : string) : M backend unit :=
  match mkdir env path with
  | Some e => raise e
  | None => emit (MadeDir path)
  end.

(** [fitz.open(path)] *)
Definition open_document (path : string) : M backend Document :=
  match fitz_open env path with
  | inr doc => emit (Opened path) ;;; ret doc
  | inl e => raise e
  end.

(** [doc.close()] *)
Definition doc_close : M backend unit := emit Closed.

(** [doc[i]], a negative [i] counting from the end *)
Definition doc_getitem (doc : Document) (i : Z) : M backend Page :=
  let n := Z.of_nat (length doc) in
  let j := if i <? 0 then i + n else i in
  if (0 <=? j) && (j <? n) then
    match doc !! Z.to_nat j with
    | Some page => ret page
    | None => raise (Exception "IndexError" "page not in document")
    end
  else raise (Exception "IndexError" "page not in document").

(** [page.get_pixmap()] *)
Definition page_get_pixmap (page : Page) : M backend Pixmap :=
  match get_pixmap page with
  | inr pix => ret pix
  | inl e => raise e
  end.

(** [pix.save(path)] *)
Definition pix_save (pix : Pixmap) (path : string) : M backend unit :=
  match save pix with
  | inr content =>
      fun s =>
        (Ok tt,
         {| stdin := stdin s; disk := <[path := content]> (disk s);
            db := db s |},
         [Saved path content])
  | inl e => raise e
  end.

(** [with open(path, 'rb') as f: f.read()] *)
Definition read_file (path : string) : M backend bytes :=
  fun s =>
    match disk s !! path with
    | Some content => (Ok content, s, [ReadBack path])
    | None => (Raise (Exception "FileNotFoundError" path), s, [])
    end.

(** [self.supabase.table(t).<op>.execute()], giving [result.data] *)
Definition supabase_execute (r : request) : M backend (list dict) :=
  fun s =>
    let '(res, b) := execute env (db s) r in
    let s' := {| stdin := stdin s; disk := disk s; db := b |} in
    match res with
    | inr data => (Ok data, s', [Executed r res])
    | inl e => (Raise e, s', [Executed r res])
    end.

(** [d[k]] *)
Definition getitem (d : dict) (k : string) : M backend value :=
  match d !! k with
  | Some v => ret v
  | None => raise (Exception "KeyError" k)
  end.

(** [rows[0]] *)
Definition first_row (rows : list dict) : M backend dict :=
  match rows with
  | row :: _ => ret row
  | [] => raise (Exception "IndexError" "list index out of range")
  end.

End Primitives.

(** ** class DocumentManager *)

Module DocumentManager.
Section Methods.

Context {backend : Type}.
Variable env : collaborators backend.

(** [_determine_file_type(self, extension)] *)
Definition _determine_file_type (extension : string) : string :=
  let extension := lower extension in
  let type_mapping : gmap string string :=
    dict_literal [
      (".pdf", "PDF");
      (".doc", "Word");
      (".docx", "Word");
      (".ppt", "PowerPoint");
      (".pptx", "PowerPoint")
    ] in
  default "Other" (type_mapping !! extension).

(** [get_file_info(self, filepath)] *)
Definition get_file_info (filepath : string) : M backend dict :=
  let path := filepath in
  stats <- path_stat env path ;;
  ret (dict_literal [
    ("filename", VStr (pathlib.name path));
    ("file_extension", VStr (slice_from 1 (pathlib.suffix path)));
    ("file_type", VStr (_determine_file_type (pathlib.suffix path)));
    ("size_kb", VInt (st_size stats / 1024));
    ("created_at", VStr (isoformat env (st_ctime stats)));
    ("last_modified", VStr (isoformat env (st_mtime stats)))
  ]).

(** The body of the page loop, for one [page_num]. *)
Definition process_page (doc : Document) (output_dir base_filename : string)
    (document_id : value) (page_count : Z) (page_num : Z) : M backend unit :=
  page <- doc_getitem doc page_num ;;
  pix <- page_get_pixmap page ;;
  let output_path :=
    pathlib.joinpath output_dir
      (base_filename ++ "-p" ++ pretty (page_num + 1) ++ ".jpg") in
  pix_save pix output_path ;;;
  img <- read_file output_path ;;
  let img_data := base64.b64encode img in
  let page_data := dict_literal [
    ("document_id", document_id);
    ("page_number", VInt (page_num + 1));
    ("page_image", VStr img_data)
  ] in
  supabase_execute env {| table := "document_pages"; op := Insert page_data |} ;;;
  print ("Processed page " ++ pretty (page_num + 1) ++ " of "
         ++ pretty page_count).

(** The [try] block: insert the document record, then the pages.  It
    ends without a [return]. *)
Definition insert_all (filepath : string) (doc : Document)
    (output_dir : string) (document_data : dict) : M backend (option value) :=
  let page_count := Z.of_nat (length doc) in
  result <- supabase_execute env
              {| table := "documents"; op := Insert document_data |} ;;
  row <- first_row result ;;
  document_id <- getitem row "id" ;;
  let base_filename := pathlib.stem filepath in
  for_each (range (length doc))
    (process_page doc output_dir base_filename document_id page_count) ;;;
  doc_close ;;;
  print (nl ++ "Document processed successfully! Document ID: "
         ++ str document_id) ;;;
  ret None.

(** The [except Exception as e] block; it ends in [return False]. *)
Definition on_error (e : exn) : M backend (option value) :=
  print ("Error processing document: " ++ exn_str e) ;;;
  doc_close ;;;
  ret (Some (VBool false)).

(** [process_document(self, filepath)], giving the returned value *)
Definition process_document (filepath : string) : M backend value :=
  found <- os_path_exists env filepath ;;
  if negb found then
    (print ("Error: File " ++ filepath ++ " not found!") ;;;
     ret VNone)
  else
    (file_info <- get_file_info filepath ;;
     let output_dir := "output" in
     path_mkdir env output_dir ;;;
     doc <- open_document env filepath ;;
     let page_count := Z.of_nat (length doc) in
     author <- input "Enter document author: " ;;
     title <- input "Enter document title: " ;;
     description <- input "Enter document description: " ;;
     answer <- input "Enter document version (press Enter for default 1.0): " ;;
     let version := or_ answer "1.0" in
     filename <- getitem file_info "filename" ;;
     file_extension <- getitem file_info "file_extension" ;;
     file_type <- getitem file_info "file_type" ;;
     size_kb <- getitem file_info "size_kb" ;;
     let document_data := dict_literal [
       ("filename", filename);
       ("file_extension", file_extension);
       ("file_type", file_type);
       ("size_kb", size_kb);
       ("author", VStr author);
       ("description", VStr description);
       ("page_count", VInt page_count);
       ("title", VStr title);
       ("version", VStr version)
     ] in
     returned <- try_except
                   (insert_all filepath doc output_dir document_data)
                   on_error ;;
     match returned with
     | Some v => ret v
     | None => ret (VBool true)
     end).

End Methods.
End DocumentManager.

Import DocumentManager.

(** ** Names for what the proofs speak of *)

(** The row [process_page] submits for page [number]. *)
Definition page_row (document_id : value) (number : Z) (img_data : string)
    : dict :=
  dict_literal [
    ("document_id", document_id);
    ("page_number", VInt number);
    ("page_image", VStr img_data)
  ].

Definition page_request (document_id : value) (number : Z) (img_data : string)
    : request :=
  {| table := "document_pages"; op := Insert (page_row document_id number img_data) |}.

(** The effects of one completed iteration of the page loop. *)
Definition page_done (document_id : value) (page_num : Z) (tx : list event) : Prop :=
  ∃ path content data line,
    tx = [Saved path content; ReadBack path;
          Executed (page_request document_id (page_num + 1) (base64.b64encode content))
                   (inr data);
          Printed line].

(** The effects of an iteration that raised [e]: nothing at all when
    the page could not be rendered or saved, or a refused insert. *)
Definition page_failed (document_id : value) (page_num : Z) (e : exn)
    (tx : list event) : Prop :=
  tx = [] ∨
  ∃ path content,
    tx = [Saved path content; ReadBack path;
          Executed (page_request document_id (page_num + 1) (base64.b64encode content))
                   (inl e)].

(** The record [process_document] assembles from the file's metadata
    and the operator's four answers. *)
Definition document_row (path : string) (st : stat_result) (doc : Document)
    (author title description answer : string) : dict :=
  dict_literal [
    ("filename", VStr (pathlib.name path));
    ("file_extension", VStr (slice_from 1 (pathlib.suffix path)));
    ("file_type", VStr (_determine_file_type (pathlib.suffix path)));
    ("size_kb", VInt (st_size st / 1024));
    ("author", VStr author);
    ("description", VStr description);
    ("page_count", VInt (Z.of_nat (length doc)));
    ("title", VStr title);
    ("version", VStr (or_ answer "1.0"))
  ].

Definition document_request (data : dict) : request :=
  {| table := "documents"; op := Insert data |}.

(** The effects that precede the [try] statement. *)
Definition prologue (path : string) : list event :=
  [MadeDir "output"; Opened path;
   Prompted "Enter document author: ";
   Prompted "Enter document title: ";
   Prompted "Enter document description: ";
   Prompted "Enter document version (press Enter for default 1.0): "].

Definition got_id (res : reply) : option value :=
  match res with
  | inr (row :: _) => row !! "id"
  | _ => None
  end.

(** An accepted page row: page [x + 1] of document [id]. *)
Definition accepted_page (id : value) (x : Z) (q : dict * reply) : Prop :=
  ∃ img data, q = (page_row id (x + 1) img, inr data).

Definition page_request_of (q : dict * reply) : request :=
  {| table := "document_pages"; op := Insert q.1 |}.

(** How the [try] block can stop on the error [e], after [k] pages
    went through: before the first page, for want of a document id; or
    in page [k + 1], whose insert either was never sent ([last] is
    empty) or was refused with [e]. *)
Definition stopped (doc : Document) (res : reply) (id : value) (k : nat)
    (last : list (dict * reply)) (e : exn) : Prop :=
  (got_id res = None ∧ k = 0%nat ∧ last = []) ∨
  (got_id res = Some id ∧ (k < length doc)%nat ∧
   (last = [] ∨
    ∃ img, last = [(page_row id (Z.of_nat k + 1) img, inl e)])).

(** ** A small concrete world, to run the program on *)

Module Sample.

(** A backend that keeps the rows it accepted, numbers them from 1 and
    refuses the page whose number is [fail_at]. *)
Record store := {
  documents : list dict;
  document_pages : list dict
}.

Definition unreachable : exn := Exception "APIError" "connection reset".

Definition refuses (fail_at : option Z) (data : dict) : bool :=
  match fail_at, data !! "page_number" with
  | Some n, Some (VInt k) => k =? n
  | _, _ => false
  end.

Definition serve (fail_at : option Z) (b : store) (r : request)
    : reply * store :=
  match op r with
  | Insert data =>
      if String.eqb (table r) "documents" then
        let row := <["id" := VInt (Z.of_nat (List.length (documents b)) + 1)]> data in
        (inr [row],
         {| documents := documents b ++ [row];
            document_pages := document_pages b |})
      else if refuses fail_at data then
        (inl unreachable, b)
      else
        let row := <["id" := VInt (Z.of_nat (List.length (document_pages b)) + 1)]> data in
        (inr [row],
         {| documents := documents b;
            document_pages := document_pages b ++ [row] |})
  | Select _ =>
      (inr (if String.eqb (table r) "documents" then documents b
            else document_pages b), b)
  | Update _ | Delete => (inr [], b)
  end.

Definition page_of (content : bytes) : Page :=
  {| get_pixmap := inr {| save := inr content |} |}.

Definition three_pages : Document :=
  [page_of [x4d]; page_of [x4d; x61]; page_of [x4d; x61; x6e]].

Definition not_a_pdf : exn := Exception "FileDataError" "cannot open broken file".

Definition missing (path : string) : exn :=
  Exception "FileNotFoundError" path.

Definition report_stat : stat_result :=
  {| st_size := 2047; st_ctime := 1700000000; st_mtime := 1700000600 |}.

Definition empty_stat : stat_result :=
  {| st_size := 1023; st_ctime := 1700000000; st_mtime := 1700000000 |}.

(** Three files exist: a three-page PDF of 2047 bytes with an
    upper-case extension, an empty PDF, and a file PyMuPDF rejects. *)
Definition world (fail_at : option Z) : collaborators store := {|
  os_stat path :=
    if String.eqb path "docs/REPORT.PDF" then
      inr report_stat
    else if String.eqb path "empty.pdf" then
      inr empty_stat
    else if String.eqb path "notes.txt" then
      inr {| st_size := 1024; st_ctime := 1700000000; st_mtime := 1700000000 |}
    else inl (missing path);
  isoformat t := "T" ++ pretty t;
  mkdir _ := None;
  fitz_open path :=
    if String.eqb path "docs/REPORT.PDF" then inr three_pages
    else if String.eqb path "empty.pdf" then inr []
    else inl not_a_pdf;
  execute := serve fail_at
|}.

Definition start (answers : list string) : state store := {|
  stdin := answers;
  disk := ∅;
  db := {| documents := []; document_pages := [] |}
|}.

Definition answers : list string := ["Ada"; "Report"; "Quarterly"; ""].

(** What [get_file_info] returns for the three-page PDF. *)
Definition report_info : dict :=
  dict_literal [
    ("filename", VStr "REPORT.PDF");
    ("file_extension", VStr "PDF");
    ("file_type", VStr "PDF");
    ("size_kb", VInt 1);
    ("created_at", VStr "T1700000000");
    ("last_modified", VStr "T1700000600")
  ].

(** The Document record submitted for it. *)
Definition report_row : dict :=
  document_row "docs/REPORT.PDF" report_stat three_pages
    "Ada" "Report" "Quarterly" "".

(** The run that goes through, and the one whose second page the
    backend refuses. *)
Definition good_run :=
  process_document (world None) "docs/REPORT.PDF" (start answers).

Definition failed_run :=
  process_document (world (Some 2)) "docs/REPORT.PDF" (start answers).

End Sample.

(** ** What a trace shows *)

(** The insert requests sent for table [tbl], with what came back. *)
Definition insert_requests (tbl : string) (tr : list event)
    : list (dict * reply) :=
  omap (fun ev =>
          match ev with
          | Executed {| table := t; op := Insert data |} res =>
              if String.eqb t tbl then Some (data, res) else None
          | _ => None
          end) tr.

(** The payloads the backend accepted: the rows it now holds. *)
Definition accepted (reqs : list (dict * reply)) : list dict :=
  omap (fun '(data, res) =>
          match res with inr _ => Some data | inl _ => None end) reqs.

Definition rows_inserted (tbl : string) (tr : list event) : list dict :=
  accepted (insert_requests tbl tr).

(** Every request sent to the backend, whatever its table and kind. *)
Definition backend_requests (tr : list event) : list request :=
  omap (fun ev => match ev with Executed r _ => Some r | _ => None end) tr.

Definition is_insert (r : request) : bool :=
  match op r with Insert _ => true | _ => false end.

(** The files written by [pix.save]. *)
Definition files_saved (tr : list event) : list string :=
  omap (fun ev => match ev with Saved path _ => Some path | _ => None end) tr.

(** The lines printed. *)
Definition printed (tr : list event) : list string :=
  omap (fun ev => match ev with Printed l => Some l | _ => None end) tr.

(** How many times the document handle was closed. *)
Definition closes (tr : list event) : nat :=
  List.length (List.filter (fun ev => match ev with Closed => true | _ => false end) tr).

(** The two fields of a page row the claims speak of. *)
Definition page_key (row : dict) : option value * option value :=
  (row !! "document_id", row !! "page_number").

(** [1; 2; ...; n] *)
Definition one_to (n : nat) : list Z := map (fun k => Z.of_nat k + 1) (seq 0 n).

(** The extension as the specification describes it: lower-cased, then
    stripped of its leading separator. *)
Definition extension_spec (path : string) : string :=
  slice_from 1 (lower (pathlib.suffix path)).

(** The classification as the specification's table gives it. *)
Definition classify_spec (extension : string) : string :=
  let e := lower extension in
  if String.eqb e ".pdf" then "PDF"
  else if String.eqb e ".doc" then "Word"
  else if String.eqb e ".docx" then "Word"
  else if String.eqb e ".ppt" then "PowerPoint"
  else if String.eqb e ".pptx" then "PowerPoint"
  else "Other".

(** The nine fields of a Document record. *)
Definition document_fields : gset string :=
  {[ "filename"; "file_extension"; "file_type"; "size_kb"; "author";
     "description"; "page_count"; "title"; "version" ]}.

(** ** The rest of the program: listing, menu and main loop *)

(** [s * n] on strings *)
Fixpoint str_repeat (s : string) (n : nat) : string :=
  match n with
  | O => ""
  | S n' => s ++ str_repeat s n'
  end.

(** The separator line, ["-" * 80]. *)
Definition separator : string := str_repeat "-" 80.

Section Program.

Context {backend : Type}.
Variable env : collaborators backend.

(** The body of the loop of [list_documents], for one row [doc]. *)
Definition print_document (doc : dict) : M backend unit :=
  id <- getitem doc "id" ;;
  print ("ID: " ++ str id) ;;;
  title <- getitem doc "title" ;;
  print ("Title: " ++ str title) ;;;
  author <- getitem doc "author" ;;
  print ("Author: " ++ str author) ;;;
  page_count <- getitem doc "page_count" ;;
  print ("Pages: " ++ str page_count) ;;;
  print separator.

(** [DocumentManager.list_documents(self)]; every path returns [None]. *)
Definition list_documents : M backend unit :=
  try_except
    (documents <- supabase_execute env
                    {| table := "documents"; op := Select "*" |} ;;
     match documents with
     | [] => print (nl ++ "No documents found in the database.")
     | _ :: _ =>
         print (nl ++ "Documents in the database:") ;;;
         print separator ;;;
         for_each documents print_document
     end)
    (fun e => print ("Error listing documents: " ++ exn_str e)).

(** [display_menu()] *)
Definition display_menu : M backend string :=
  print (nl ++ "Document Management System") ;;;
  print "1. Upload new document" ;;;
  print "2. List all documents" ;;;
  print "3. Exit" ;;;
  input "Select an option (1-3): ".

(** The [while True] loop of [main], run for at most [fuel] turns.
    [Some tt] is the [break]; [None] says the loop is still running
    when the fuel is spent. *)
Fixpoint main_loop (fuel : nat) : M backend (option unit) :=
  match fuel with
  | O => ret None
  | S fuel' =>
      choice <- display_menu ;;
      if String.eqb choice "1" then
        (filepath <- input (nl ++ "Please enter the path to your document: ") ;;
         process_document env filepath ;;;
         main_loop fuel')
      else if String.eqb choice "2" then
        (list_documents ;;;
         main_loop fuel')
      else if String.eqb choice "3" then
        (print (nl ++ "Exiting the program. Goodbye!") ;;;
         ret (Some tt))
      else
        (print (nl ++ "Invalid option. Please try again.") ;;;
         main_loop fuel')
  end.

End Program.

(** [main()]: [manager = DocumentManager()] gives the manager or raises
    what the construction of the client raises; then the loop. *)
Definition main {backend : Type} (new_manager : exn + collaborators backend)
    (fuel : nat) : M backend (option unit) :=
  match new_manager with
  | inl e => raise e
  | inr manager => main_loop manager fuel
  end.

(** The effects of [display_menu]. *)
Definition menu : list event :=
  [Printed (nl ++ "Document Management System");
   Printed "1. Upload new document";
   Printed "2. List all documents";
   Printed "3. Exit";
   Prompted "Select an option (1-3): "].

(** The lines [list_documents] prints for one row. *)
Definition document_block (doc : dict) : list string :=
  ["ID: " ++ str (default VNone (doc !! "id"));
   "Title: " ++ str (default VNone (doc !! "title"));
   "Author: " ++ str (default VNone (doc !! "author"));
   "Pages: " ++ str (default VNone (doc !! "page_count"));
   separator].

(** A row that has the four fields [list_documents] prints. *)
Definition printable (doc : dict) : Prop :=
  is_Some (doc !! "id") ∧ is_Some (doc !! "title") ∧
  is_Some (doc !! "author") ∧ is_Some (doc !! "page_count").

(** The prompts written by [input], in order. *)
Definition prompts (tr : list event) : list string :=
  omap (fun ev => match ev with Prompted p => Some p | _ => None end) tr.

(** The documents [fitz.open] returned a handle for. *)
Definition opened (tr : list event) : list string :=
  omap (fun ev => match ev with Opened p => Some p | _ => None end) tr.

(** The bytes written by [pix.save], file by file. *)
Definition contents_saved (tr : list event) : list bytes :=
  omap (fun ev => match ev with Saved _ c => Some c | _ => None end) tr.

(** What [page.get_pixmap().save(...)] writes for a page, if neither
    call raises. *)
Definition page_jpeg (page : Page) : option bytes :=
  match get_pixmap page with
  | inr pix => match save pix with inr content => Some content | inl _ => None end
  | inl _ => None
  end.

(** The image file of page [n + 1]. *)
Definition image_path (base_filename : string) (n : nat) : string :=
  "output/" ++ base_filename ++ "-p" ++ pretty (Z.of_nat n + 1) ++ ".jpg".

(** The progress line of page [n + 1] out of [total]. *)
Definition progress_line (total n : nat) : string :=
  "Processed page " ++ pretty (Z.of_nat n + 1) ++ " of "
  ++ pretty (Z.of_nat total).

(** The four names [_determine_file_type] can give. *)
Definition file_types : list string := ["PDF"; "Word"; "PowerPoint"; "Other"].

(** No character of [s] is [c]. *)
Fixpoint without (c : ascii) (s : string) : bool :=
  match s with
  | "" => true
  | String a s' => negb (Ascii.eqb a c) && without c s'
  end.

(** The effects of the iteration for page [n + 1] when it completes:
    [item] is the JPEG written and the reply to the insert. *)
Definition page_events (base_filename : string) (id : value) (total : nat)
    (n : nat) (item : bytes * list dict) : list event :=
  [Saved (image_path base_filename n) item.1;
   ReadBack (image_path base_filename n);
   Executed (page_request id (Z.of_nat n + 1) (base64.b64encode item.1))
            (inr item.2);
   Printed (progress_line total n)].

(** The line printed at the end of a successful ingestion. *)
Definition success_line (id : value) : string :=
  nl ++ "Document processed successfully! Document ID: " ++ str id.

(** [m] leaves the console alone: it reads nothing and prompts for
    nothing. *)
Definition quiet {backend A} (m : M backend A) : Prop :=
  ∀ s r s' t, m s = (r, s', t) → stdin s' = stdin s ∧ prompts t = [].

(** [m] reads lines only in answer to its prompts: the input left is
    what there was, less at most one line per prompt. *)
Definition reads {backend A} (m : M backend A) : Prop :=
  ∀ s r s' t, m s = (r, s', t) →
    ∃ used, stdin s = (used ++ stdin s')%list ∧
            (length used ≤ length (prompts t))%nat.

(** The one request of [list_documents]. *)
Definition select_all : request := {| table := "documents"; op := Select "*" |}.

(** The two lines above the blocks of a listing. *)
Definition listing_header : list string :=
  [nl ++ "Documents in the database:"; separator].

(** The line printed on leaving the menu loop. *)
Definition goodbye : string := nl ++ "Exiting the program. Goodbye!".

(** ** More concrete worlds *)

Module Scenario.




Definition row_1 : dict :=
  dict_literal [("id", VInt 1); ("title", VStr "Report"); ("author", VStr "Ada");
                ("page_count", VInt 3)].


Definition row_3 : dict :=
  dict_literal [("id", VInt 3); ("title", VStr "Slides"); ("author", VStr "Bo");
                ("page_count", VInt 12)].

(** A state whose backend holds [rows] in [documents]. *)
Definition holding (rows : list dict) (lines : list string)
    : state Sample.store := {|
  stdin := lines;
  disk := ∅;
  db := {| Sample.documents := rows; Sample.document_pages := [] |}
|}.

(** A session: a listing, an upload, a listing, a wrong choice, the
    exit, and a line that is never read. *)
Definition session : list string :=
  ["2"; "1"; "empty.pdf"; "Ada"; "Report"; "Quarterly"; ""; "2"; "x"; "3";
   "unread"].

(** The listing of two good rows, and of three rows the second of
    which is defective; the whole session. *)
Definition listing :=
  list_documents (Sample.world None) (holding [row_1; row_3] []).


Definition session_run :=
  main (inr (Sample.world None)) 12 (Sample.start session).

End Scenario.

(** * Properties *)

(** ** The models of the built-ins, on examples *)

Example lower_mixed : lower ".PdF" = ".pdf".
Proof. reflexivity. Qed.

Example suffix_plain : pathlib.suffix "docs/report.v2.pdf" = ".pdf".
Proof. reflexivity. Qed.

Example suffix_hidden : pathlib.suffix "/home/u/.bashrc" = "".
Proof. reflexivity. Qed.

Example suffix_trailing_dot : pathlib.suffix "a/b." = "".
Proof. reflexivity. Qed.

Example stem_plain : pathlib.stem "docs/report.v2.pdf" = "report.v2".
Proof. reflexivity. Qed.

Example name_trailing_slash : pathlib.name "docs/report.pdf/" = "report.pdf".
Proof. reflexivity. Qed.

Example b64_Man : base64.b64encode [x4d; x61; x6e] = "TWFu".
Proof. reflexivity. Qed.

Example b64_Ma : base64.b64encode [x4d; x61] = "TWE=".
Proof. reflexivity. Qed.

Example b64_M : base64.b64encode [x4d] = "TQ==".
Proof. reflexivity. Qed.

(** ** How a run unfolds *)

Section Runs.
Context {backend : Type}.
Variable env : collaborators backend.

Lemma bind_inv {A B} (m : M backend A) (f : A → M backend B) s r s' t :
  bind m f s = (r, s', t) →
  (∃ a s1 t1 t2, m s = (Ok a, s1, t1) ∧ f a s1 = (r, s', t2) ∧ t = (t1 ++ t2)%list)
  ∨ (∃ e, m s = (Raise e, s', t) ∧ r = Raise e).
Proof.
  unfold bind. destruct (m s) as [[[a|e] s1] t1].
  - destruct (f a s1) as [[r2 s2] t2] eqn:E. intros [= <- <- <-].
    left. by exists a, s1, t1, t2.
  - intros [= <- <- <-]. right. by exists e.
Qed.

Lemma bind_ret {A B} (a : A) (f : A → M backend B) s :
  bind (ret a) f s = f a s.
Proof. unfold bind, ret. by destruct (f a s) as [[??]?]. Qed.

Lemma bind_raise {A B} e (f : A → M backend B) s :
  bind (raise e) f s = (Raise e, s, []).
Proof. reflexivity. Qed.

Lemma process_page_inv doc out base id pc n s r s' t :
  process_page env doc out base id pc n s = (r, s', t) →
  match r with
  | Ok _ => page_done id n t
  | Raise e => page_failed id n e t
  end.
Proof.
  unfold process_page. intros H.
  apply bind_inv in H as [(page & s1 & t1 & t2 & H1 & H & ->)|(e & H1 & ->)]; last first.
  { unfold doc_getitem in H1. repeat case_match; unfold raise, ret in H1; simplify_eq; by left. }
  assert (s1 = s ∧ t1 = []) as [-> ->].
  { unfold doc_getitem in H1. repeat case_match; unfold raise, ret in H1; by simplify_eq. }
  clear H1.
  apply bind_inv in H as [(pix & s1 & t1 & t2' & H1 & H & ->)|(e & H1 & ->)]; last first.
  { unfold page_get_pixmap in H1. case_match; unfold raise, ret in H1; simplify_eq; by left. }
  assert (s1 = s ∧ t1 = []) as [-> ->].
  { unfold page_get_pixmap in H1. case_match; unfold raise, ret in H1; by simplify_eq. }
  clear H1. cbn [app].
  apply bind_inv in H as [([] & s1 & t1 & t2 & H1 & H & ->)|(e & H1 & ->)]; last first.
  { unfold pix_save in H1. case_match; unfold raise, ret in H1; simplify_eq; by left. }
  unfold pix_save in H1. destruct (save pix) as [?|content]; [by unfold raise in H1|].
  injection H1 as <- <-.
  apply bind_inv in H as [(img & s1 & t1 & t2' & H1 & H & ->)|(e & H1 & ->)]; last first.
  { unfold read_file in H1. cbn in H1. rewrite lookup_insert_eq in H1. done. }
  unfold read_file in H1. cbn in H1. rewrite lookup_insert_eq in H1.
  injection H1 as <- <- <-.
  apply bind_inv in H as [(rows & s1 & t1 & t2 & H1 & H & ->)|(e & H1 & ->)].
  - unfold supabase_execute in H1. cbn in H1.
    destruct (execute env _ _) as [[e|data] b]; [done|].
    injection H1 as <- <- <-. unfold print, emit in H. injection H as <- <- <-.
    eexists _, _, _, _. reflexivity.
  - unfold supabase_execute in H1. cbn in H1.
    destruct (execute env _ _) as [[e'|data] b]; [|done].
    injection H1 as <- <- <-. right. eexists _, _. reflexivity.
Qed.

Lemma page_loop_inv doc out base id pc xs s r s' t :
  for_each xs (process_page env doc out base id pc) s = (r, s', t) →
  ∃ done ts tx,
    Forall2 (page_done id) done ts ∧ t = (concat ts ++ tx)%list ∧
    match r with
    | Ok _ => done = xs ∧ tx = []
    | Raise e => ∃ x rest, xs = (done ++ x :: rest)%list ∧ page_failed id x e tx
    end.
Proof.
  revert s t. induction xs as [|x xs IH]; intros s t H.
  - injection H as <- <- <-. exists [], [], []. by repeat constructor.
  - cbn [for_each] in H.
    apply bind_inv in H as [([] & s1 & t1 & t2 & H1 & H & ->)|(e & H1 & ->)].
    + apply process_page_inv in H1.
      apply IH in H as (done & ts & tx & Hdone & -> & Hr).
      exists (x :: done), (t1 :: ts), tx. split; [by constructor|].
      split; [by rewrite concat_cons, <-(assoc_L _)|].
      destruct r as [?|e]; [by destruct Hr as [-> ->]|].
      destruct Hr as (y & rest & -> & Hy). by exists y, rest.
    + apply process_page_inv in H1.
      exists [], [], t. split; [constructor|]. split; [done|].
      by exists x, xs.
Qed.

Lemma insert_all_inv path doc out data s r s' t :
  insert_all env path doc out data s = (r, s', t) →
  ∃ res b t',
    execute env (db s) (document_request data) = (res, b) ∧
    t = Executed (document_request data) res :: t' ∧
    match res with
    | inl e => r = Raise e ∧ t' = []
    | inr [] => (∃ e, r = Raise e) ∧ t' = []
    | inr (row :: _) =>
        match row !! "id" with
        | None => (∃ e, r = Raise e) ∧ t' = []
        | Some id =>
            ∃ done ts,
              Forall2 (page_done id) done ts ∧
              match r with
              | Ok v =>
                  v = None ∧ done = range (length doc) ∧
                  ∃ line, t' = (concat ts ++ [Closed; Printed line])%list
              | Raise e =>
                  ∃ tx x rest,
                    t' = (concat ts ++ tx)%list ∧
                    range (length doc) = (done ++ x :: rest)%list ∧
                    page_failed id x e tx
              end
        end
    end.
Proof.
  unfold insert_all. intros H.
  apply bind_inv in H as [(rows & s1 & t1 & t2 & H1 & H & ->)|(e & H1 & ->)];
    unfold supabase_execute in H1;
    destruct (execute env (db s) _) as [[e'|data'] b] eqn:Hex;
    simplify_eq.
  2:{ eexists _, _, []. split; [reflexivity|done]. }
  eexists _, _, t2. split; [reflexivity|]. split; [done|]. clear Hex.
  destruct rows as [|row rows]; unfold first_row in H.
  { rewrite bind_raise in H. simplify_eq. eauto. }
  rewrite bind_ret in H. unfold getitem in H.
  destruct (row !! "id") as [id|].
  2:{ rewrite bind_raise in H. simplify_eq. eauto. }
  rewrite bind_ret in H.
  apply bind_inv in H as [([] & s2 & t1 & t3 & H1 & H & ->)|(e & H1 & ->)];
    apply page_loop_inv in H1 as (done & ts & tx & Hdone & -> & Hr).
  - destruct Hr as [-> ->]. exists (range (length doc)), ts. split; [done|].
    unfold doc_close, print, emit, bind, ret in H. simplify_eq.
    rewrite app_nil_r. eauto.
  - destruct Hr as (x & rest & ? & ?). exists done, ts. split; [done|].
    by exists tx, x, rest.
Qed.

Lemma try_except_inv {A} (m : M backend A) h s r s' t :
  try_except m h s = (r, s', t) →
  (∃ c msg s1 t1 t2,
      m s = (Raise (Exception c msg), s1, t1) ∧
      h (Exception c msg) s1 = (r, s', t2) ∧ t = (t1 ++ t2)%list)
  ∨ (m s = (r, s', t) ∧ ∀ c msg, r ≠ Raise (Exception c msg)).
Proof.
  unfold try_except. destruct (m s) as [[[a|[c msg|c msg]] s1] t1]; intros H.
  - right. by simplify_eq.
  - left. destruct (h _ s1) as [[r2 s2] t2] eqn:Hh. simplify_eq.
    by exists c, msg, s1, t1, t2.
  - right. by simplify_eq.
Qed.

Lemma input_inv prompt (s : state backend) (r : result string) s' t :
  input prompt s = (r, s', t) →
  t = [Prompted prompt] ∧
  match r with
  | Ok line =>
      ∃ rest, stdin s = line :: rest ∧
              s' = {| stdin := rest; disk := disk s; db := db s |}
  | Raise _ => stdin s = [] ∧ s' = s
  end.
Proof.
  unfold input. destruct (stdin s) eqn:E; intros ?; simplify_eq; eauto.
Qed.

Lemma file_info_items (a b c d e f : value) :
  let info := dict_literal [
    ("filename", a); ("file_extension", b); ("file_type", c);
    ("size_kb", d); ("created_at", e); ("last_modified", f)] in
  getitem (backend:=backend) info "filename" = ret a ∧
  getitem (backend:=backend) info "file_extension" = ret b ∧
  getitem (backend:=backend) info "file_type" = ret c ∧
  getitem (backend:=backend) info "size_kb" = ret d.
Proof. done. Qed.

(** The three ways a call of [process_document] can go. *)
Lemma process_document_inv path s r s' t :
  process_document env path s = (r, s', t) →
  (* the file is missing *)
  ((∃ e, os_stat env path = inl e) ∧ r = Ok VNone ∧ s' = s ∧
   t = [Printed ("Error: File " ++ path ++ " not found!")])
  ∨ (* an error before the [try] statement *)
  (∃ st e t', os_stat env path = inr st ∧ r = Raise e ∧
      prologue path = (t ++ t')%list ∧
      (mkdir env "output" = None → fitz_open env path = inl e ∨
         (∃ doc, fitz_open env path = inr doc) ∧ (length (stdin s) < 4)%nat))
  ∨ (* the [try] statement was reached *)
  (∃ st doc author title description answer rest r2 t2,
      os_stat env path = inr st ∧ mkdir env "output" = None ∧
      fitz_open env path = inr doc ∧
      stdin s = author :: title :: description :: answer :: rest ∧
      try_except
        (insert_all env path doc "output"
           (document_row path st doc author title description answer))
        on_error
        {| stdin := rest; disk := disk s; db := db s |} = (r2, s', t2) ∧
      t = (prologue path ++ t2)%list ∧
      r = match r2 with
          | Ok (Some v) => Ok v
          | Ok None => Ok (VBool true)
          | Raise e => Raise e
          end).
Proof.
  unfold process_document. intros H.
  apply bind_inv in H as [(? & ? & ? & ? & H1 & H & ->)|(? & H1 & ->)];
    unfold os_path_exists, ret in H1; [|done].
  injection H1 as <- <- <-.
  destruct (os_stat env path) as [e|st] eqn:Hstat; cbn [negb] in H.
  { left. unfold print, emit, bind, ret in H. injection H as <- <- <-. eauto. }
  right.
  apply bind_inv in H as [(info & ? & ? & ? & H1 & H & ->)|(? & H1 & ->)];
    unfold get_file_info, path_stat in H1; rewrite Hstat, bind_ret in H1;
    unfold ret in H1; [|done].
  injection H1 as <- <- <-.
  apply bind_inv in H as [(? & ? & ? & ? & H1 & H & ->)|(? & H1 & ->)];
    unfold path_mkdir in H1; destruct (mkdir env "output") as [e'|] eqn:Hmk;
    unfold raise, emit in H1; try done.
  2:{ injection H1 as <- <- <-. left. exists st, e', (prologue path).
      do 3 (split; [done|]). done. }
  injection H1 as <- <- <-.
  apply bind_inv in H as [(doc & ? & ? & ? & H1 & H & ->)|(? & H1 & ->)];
    unfold open_document in H1; destruct (fitz_open env path) as [e'|doc'] eqn:Hop;
    unfold raise, emit, bind, ret in H1; try done.
  2:{ injection H1 as <- <- <-. left. exists st, e', (tail (prologue path)).
      do 3 (split; [done|]). intros _. by left. }
  injection H1 as <- <- <-.
  apply bind_inv in H as [(author & ? & ? & ? & H1 & H & ->)|(? & H1 & ->)];
    apply input_inv in H1 as [-> H1].
  2:{ left. destruct H1 as [Hin ->]. eexists st, _, (drop 3 (prologue path)).
      do 3 (split; [done|]). intros _. right. rewrite Hin. cbn.
      split; [eauto|lia]. }
  destruct H1 as (rest1 & Hin1 & ->).
  apply bind_inv in H as [(title & ? & ? & ? & H1 & H & ->)|(? & H1 & ->)];
    apply input_inv in H1 as [-> H1]; cbn [stdin disk db] in H1.
  2:{ left. destruct H1 as [Hin ->]. eexists st, _, (drop 4 (prologue path)).
      do 3 (split; [done|]). intros _. right. rewrite Hin1, Hin. cbn.
      split; [eauto|lia]. }
  destruct H1 as (rest2 & -> & ->).
  apply bind_inv in H as [(description & ? & ? & ? & H1 & H & ->)|(? & H1 & ->)];
    apply input_inv in H1 as [-> H1]; cbn [stdin disk db] in H1.
  2:{ left. destruct H1 as [Hin ->]. eexists st, _, (drop 5 (prologue path)).
      do 3 (split; [done|]). intros _. right. rewrite Hin1, Hin. cbn.
      split; [eauto|lia]. }
  destruct H1 as (rest3 & -> & ->).
  apply bind_inv in H as [(answer & ? & ? & ? & H1 & H & ->)|(? & H1 & ->)];
    apply input_inv in H1 as [-> H1]; cbn [stdin disk db] in H1.
  2:{ left. destruct H1 as [Hin ->]. eexists st, _, [].
      do 3 (split; [done|]). intros _. right. rewrite Hin1, Hin. cbn.
      split; [eauto|lia]. }
  destruct H1 as (rest & -> & ->).
  right.
  match type of H with
  | context [getitem (dict_literal [(_, ?a); (_, ?b); (_, ?c); (_, ?d); (_, ?e); (_, ?f)]) _] =>
      destruct (file_info_items a b c d e f) as (E1 & E2 & E3 & E4)
  end.
  rewrite E1, bind_ret, E2, bind_ret, E3, bind_ret, E4, bind_ret in H.
  clear E1 E2 E3 E4.
  apply bind_inv in H as [([v|] & s2 & t1 & ? & H1 & H & ->)|(? & H1 & ->)];
    [injection H as <- <- <-..|]; rewrite ?app_nil_r;
    eexists st, doc', author, title, description, answer, rest, _, _;
    (do 4 (split; [done|])); (split; [exact H1|]); done.
Qed.

End Runs.

Lemma length_range n : length (range n) = n.
Proof. unfold range. by rewrite length_map, length_seq. Qed.

Lemma range_split n done x rest :
  range n = (done ++ x :: rest)%list →
  done = range (length done) ∧ x = Z.of_nat (length done) ∧ (length done < n)%nat.
Proof.
  unfold range. intros H.
  assert (length done < n)%nat as Hlt.
  { apply (f_equal length) in H. rewrite length_map, length_seq, length_app in H.
    cbn in H. lia. }
  split; [|split; [|done]].
  - apply (f_equal (take (length done))) in H.
    rewrite take_app_length, <-fmap_take, take_seq in H.
    rewrite Nat.min_l in H by lia. by rewrite <-H at 1.
  - apply (f_equal (fun l => l !! length done)) in H.
    rewrite list_lookup_fmap, lookup_seq_lt, lookup_app_r, Nat.sub_diag in H by lia.
    cbn in H. by simplify_eq.
Qed.

Lemma insert_requests_app tbl t1 t2 :
  insert_requests tbl (t1 ++ t2) = (insert_requests tbl t1 ++ insert_requests tbl t2)%list.
Proof. apply omap_app. Qed.

Lemma backend_requests_app t1 t2 :
  backend_requests (t1 ++ t2) = (backend_requests t1 ++ backend_requests t2)%list.
Proof. apply omap_app. Qed.

Lemma files_saved_app t1 t2 :
  files_saved (t1 ++ t2) = (files_saved t1 ++ files_saved t2)%list.
Proof. apply omap_app. Qed.

Lemma printed_app t1 t2 :
  printed (t1 ++ t2) = (printed t1 ++ printed t2)%list.
Proof. apply omap_app. Qed.

Lemma accepted_app q1 q2 :
  accepted (q1 ++ q2) = (accepted q1 ++ accepted q2)%list.
Proof. apply omap_app. Qed.

Lemma closes_app t1 t2 : closes (t1 ++ t2) = (closes t1 + closes t2)%nat.
Proof. unfold closes. by rewrite List.filter_app, length_app. Qed.

Ltac split_trace :=
  rewrite ?insert_requests_app, ?backend_requests_app, ?files_saved_app,
    ?printed_app, ?closes_app, ?length_app, ?map_app.

(** What the completed iterations of the page loop show. *)
Lemma pages_done_requests id done ts :
  Forall2 (page_done id) done ts →
  Forall2 (accepted_page id) done (insert_requests "document_pages" (concat ts))
  ∧ insert_requests "documents" (concat ts) = []
  ∧ backend_requests (concat ts)
    = map page_request_of (insert_requests "document_pages" (concat ts))
  ∧ closes (concat ts) = 0%nat
  ∧ length (files_saved (concat ts)) = length done.
Proof.
  induction 1 as [|x tx done ts (p & c & data & l & ->) _ (IH1 & IH2 & IH3 & IH4 & IH5)].
  - by repeat constructor.
  - rewrite concat_cons. split_trace. rewrite IH2, IH3, IH4, IH5.
    split_and!; try done.
    constructor; [by eexists _, _|done].
Qed.

Section Summaries.
Context {backend : Type}.
Variable env : collaborators backend.

(** The [try] block, seen through its trace. *)
Lemma insert_all_summary path doc out data s r s' t :
  insert_all env path doc out data s = (r, s', t) →
  ∃ res b t' id k oks last,
    execute env (db s) (document_request data) = (res, b) ∧
    t = Executed (document_request data) res :: t' ∧
    insert_requests "documents" t' = [] ∧
    backend_requests t'
      = map page_request_of (insert_requests "document_pages" t') ∧
    insert_requests "document_pages" t' = (oks ++ last)%list ∧
    Forall2 (accepted_page id) (range k) oks ∧
    length (files_saved t') = (k + length last)%nat ∧
    match r with
    | Ok v =>
        v = None ∧ got_id res = Some id ∧ k = length doc ∧ last = [] ∧
        closes t' = 1%nat
    | Raise e => closes t' = 0%nat ∧ stopped doc res id k last e
    end.
Proof.
  intros H. apply insert_all_inv in H as (res & b & t' & Hex & -> & H).
  exists res, b, t'.
  assert (∀ e, r = Raise e → t' = [] → got_id res = None →
    ∃ (id : value) (k : nat) (oks last : list (dict * reply)),
      execute env (db s) (document_request data) = (res, b) ∧
      Executed (document_request data) res :: t'
        = Executed (document_request data) res :: t' ∧
      insert_requests "documents" t' = [] ∧
      backend_requests t'
        = map page_request_of (insert_requests "document_pages" t') ∧
      insert_requests "document_pages" t' = (oks ++ last)%list ∧
      Forall2 (accepted_page id) (range k) oks ∧
      length (files_saved t') = (k + length last)%nat ∧
      match r with
      | Ok v =>
          v = None ∧ got_id res = Some id ∧ k = length doc ∧ last = [] ∧
          closes t' = 1%nat
      | Raise e => closes t' = 0%nat ∧ stopped doc res id k last e
      end) as Hearly.
  { intros e -> -> Hid. exists VNone, 0%nat, [], [].
    split_and!; first [done | by constructor | by left]. }
  destruct res as [e|[|row rows]].
  { destruct H as [-> ->]. by eapply Hearly. }
  { destruct H as [[e ->] ->]. by eapply Hearly. }
  destruct (row !! "id") as [id|] eqn:Hid.
  2:{ destruct H as [[e ->] ->]. by eapply Hearly. }
  clear Hearly. destruct H as (done & ts & Hdone & H).
  apply pages_done_requests in Hdone as (Hreqs & Hdocs & Hback & Hcl & Hfiles).
  destruct r as [v|e].
  - destruct H as (-> & -> & line & ->).
    exists id, (length doc), (insert_requests "document_pages" (concat ts)), [].
    split_trace. rewrite Hdocs, Hback, Hcl, Hfiles, length_range. cbn.
    rewrite !app_nil_r.
    split_and!; first [done | lia].
  - destruct H as (tx & x & rest & -> & Hsplit & Hfail).
    apply range_split in Hsplit as (Hd & -> & Hlt).
    rewrite Hd in Hreqs.
    exists id, (length done), (insert_requests "document_pages" (concat ts)),
      (insert_requests "document_pages" tx).
    split_trace. rewrite Hdocs, Hback, Hcl, Hfiles.
    destruct Hfail as [->|(p & c & ->)]; cbn; rewrite ?app_nil_r.
    + split_and!; try first [done | lia].
      right. split_and!; [done|done|by left].
    + split_and!; try first [done | lia].
      right. split_and!; [done|done|]. right. eexists. reflexivity.
Qed.

(** The whole [try] statement, handler included. *)
Lemma try_summary path doc out data s r s' t :
  try_except (insert_all env path doc out data) on_error s = (r, s', t) →
  ∃ res b t' id k oks last,
    execute env (db s) (document_request data) = (res, b) ∧
    t = Executed (document_request data) res :: t' ∧
    insert_requests "documents" t' = [] ∧
    backend_requests t'
      = map page_request_of (insert_requests "document_pages" t') ∧
    insert_requests "document_pages" t' = (oks ++ last)%list ∧
    Forall2 (accepted_page id) (range k) oks ∧
    length (files_saved t') = (k + length last)%nat ∧
    match r with
    | Ok None =>
        got_id res = Some id ∧ k = length doc ∧ last = [] ∧
        closes t' = 1%nat
    | Ok (Some v) =>
        v = VBool false ∧ closes t' = 1%nat ∧
        ∃ c msg, stopped doc res id k last (Exception c msg)
    | Raise e =>
        closes t' = 0%nat ∧ (∀ c msg, e ≠ Exception c msg) ∧
        stopped doc res id k last e
    end.
Proof.
  intros H.
  apply try_except_inv in H as [(c & msg & s1 & t1 & t2 & H & Hh & ->)|[H Hne]].
  - injection Hh as <- <- <-.
    apply insert_all_summary in H
      as (res & b & t' & id & k & oks & last & Hex & -> & H1 & H2 & H3 & H4 & H5
          & Hcl & Hstop).
    exists res, b, (t' ++ [Printed ("Error processing document: " ++ msg); Closed])%list,
      id, k, oks, last.
    split_trace. rewrite H1, H2, H3, H5, Hcl. cbn [length]. 
    split_and!; try done; [by rewrite app_nil_r..|by exists c, msg].
  - apply insert_all_summary in H
      as (res & b & t' & id & k & oks & last & Hex & -> & H1 & H2 & H3 & H4 & H5 & H).
    exists res, b, t', id, k, oks, last.
    do 7 (split; [done|]).
    destruct r as [v|e].
    + by destruct H as (-> & ? & -> & -> & ?).
    + destruct H as (? & ?). split_and!; try done.
      intros c msg ->. by eapply Hne.
Qed.
End Summaries.

(** ** Facts about rows and traces *)

Lemma page_row_key id n img :
  page_key (page_row id n img) = (Some id, Some (VInt n)).
Proof. done. Qed.

Lemma page_row_number id n img :
  page_row id n img !! "page_number" = Some (VInt n).
Proof. done. Qed.

Lemma one_to_range k : one_to k = (fun x => x + 1) <$> range k.
Proof. unfold one_to, range. by rewrite <-list_fmap_compose. Qed.

(** Accepted page rows: all went through, numbered from 1. *)
Lemma accepted_pages id k oks :
  Forall2 (accepted_page id) (range k) oks →
  length oks = k ∧ accepted oks = oks.*1 ∧
  page_key <$> oks.*1 = (fun n => (Some id, Some (VInt n))) <$> one_to k ∧
  Forall (fun q => ∃ img n, q.1 = page_row id n img ∧ ∃ data, q.2 = inr data) oks.
Proof.
  intros H. split.
  { apply Forall2_length in H. by rewrite length_range in H. }
  rewrite one_to_range. generalize dependent (range k). intros xs H.
  induction H as [|x q xs oks (img & data & ->) _ (IH1 & IH2 & IH3)].
  - done.
  - unfold accepted in *. cbn. rewrite IH1, IH2. split_and!; try done.
    constructor; [|done]. cbn. eauto.
Qed.

Lemma run_observed path data res t' :
  let t := (prologue path ++ Executed (document_request data) res :: t')%list in
  insert_requests "documents" t = (data, res) :: insert_requests "documents" t' ∧
  insert_requests "document_pages" t = insert_requests "document_pages" t' ∧
  backend_requests t = document_request data :: backend_requests t' ∧
  files_saved t = files_saved t' ∧
  closes t = closes t'.
Proof. done. Qed.

Lemma document_row_fields path st doc author title description answer :
  dom (document_row path st doc author title description answer)
  = document_fields.
Proof. reflexivity. Qed.

Lemma page_row_fields id n img :
  dom (page_row id n img) = {[ "document_id"; "page_number"; "page_image" ]}.
Proof. reflexivity. Qed.

Lemma prologue_prefix path t t' :
  prologue path = (t ++ t')%list →
  insert_requests "documents" t = [] ∧
  insert_requests "document_pages" t = [] ∧
  backend_requests t = [] ∧ printed t = [] ∧ files_saved t = [] ∧
  closes t = 0%nat.
Proof.
  intros H. split_and!.
  - apply (f_equal (insert_requests "documents")) in H.
    rewrite insert_requests_app in H. by destruct (app_eq_nil _ _ (eq_sym H)).
  - apply (f_equal (insert_requests "document_pages")) in H.
    rewrite insert_requests_app in H. by destruct (app_eq_nil _ _ (eq_sym H)).
  - apply (f_equal backend_requests) in H.
    rewrite backend_requests_app in H. by destruct (app_eq_nil _ _ (eq_sym H)).
  - apply (f_equal printed) in H.
    rewrite printed_app in H. by destruct (app_eq_nil _ _ (eq_sym H)).
  - apply (f_equal files_saved) in H.
    rewrite files_saved_app in H. by destruct (app_eq_nil _ _ (eq_sym H)).
  - apply (f_equal closes) in H. rewrite closes_app in H. cbn in H. lia.
Qed.

Lemma got_id_accepted res id data :
  got_id res = Some id → accepted [(data, res)] = [data].
Proof. by destruct res as [|[|??]]. Qed.

Lemma or_default answer :
  or_ answer "1.0" = if decide (answer = "") then "1.0" else answer.
Proof. by destruct answer. Qed.

(** ** The claims about a run *)

Section Claims.
Context {backend : Type}.
Variable env : collaborators backend.

(** A successful run, laid out. *)
Lemma success_inv path s s' t :
  process_document env path s = (Ok (VBool true), s', t) →
  ∃ st doc author title description answer rest res b id oks t' data,
    os_stat env path = inr st ∧ fitz_open env path = inr doc ∧
    stdin s = author :: title :: description :: answer :: rest ∧
    data = document_row path st doc author title description answer ∧
    execute env (db s) (document_request data) = (res, b) ∧
    got_id res = Some id ∧
    t = (prologue path ++ Executed (document_request data) res :: t')%list ∧
    insert_requests "documents" t' = [] ∧
    backend_requests t' = map page_request_of oks ∧
    insert_requests "document_pages" t' = oks ∧
    Forall2 (accepted_page id) (range (length doc)) oks ∧
    length (files_saved t') = length doc ∧
    closes t' = 1%nat.
Proof.
  intros H.
  apply process_document_inv in H
    as [(_ & ? & _)|[(st & e & t' & _ & ? & _)|
        (st & doc & author & title & description & answer & rest & r2 & t2
         & Hstat & Hmk & Hop & Hin & Htry & -> & Hr)]]; [done..|].
  apply try_summary in Htry
    as (res & b & t' & id & k & oks & last & Hex & -> & H1 & H2 & H3 & H4 & H5 & H).
  destruct r2 as [[v|]|e]; [|clear Hr|done].
  { destruct H as (-> & _). done. }
  destruct H as (Hid & -> & -> & Hcl). rewrite app_nil_r in H3.
  rewrite Nat.add_0_r in H5. rewrite H3 in H2.
  by eexists st, doc, author, title, description, answer, rest, res, b, id, oks, t', _.
Qed.

(** C1.  After a successful ingestion of a document with P pages,
    exactly P Page inserts were sent, all were accepted, their
    page numbers are 1, 2, ..., P in the order sent, and each carries
    the id found in the reply to the Document insert. *)
Theorem pages_inserted_in_order path s s' t :
  process_document env path s = (Ok (VBool true), s', t) →
  ∃ doc data res id,
    fitz_open env path = inr doc ∧
    insert_requests "documents" t = [(data, res)] ∧
    got_id res = Some id ∧
    length (insert_requests "document_pages" t) = length doc ∧
    rows_inserted "document_pages" t
      = (insert_requests "document_pages" t).*1 ∧
    page_key <$> rows_inserted "document_pages" t
      = (fun n => (Some id, Some (VInt n))) <$> one_to (length doc).
Proof.
  intros H.
  apply success_inv in H
    as (st & doc & author & title & description & answer & rest & res & b & id
        & oks & t' & data & Hstat & Hop & Hin & Hdata & Hex & Hid & -> & Hdocs & Hback
        & Hpages & Hoks & Hfiles & Hcl).
  destruct (run_observed path data res t') as (-> & E & _).
  apply accepted_pages in Hoks as (Hlen & Hacc & Hkeys & _).
  exists doc, data, res, id. unfold rows_inserted.
  rewrite E, Hdocs, Hpages, Hacc. by split_and!.
Qed.

(** C10.  After a successful ingestion the Document insert carries
    exactly the nine fields of a Document record, and no insert sent
    to the backend carries the two timestamps, which the metadata
    extractor did compute. *)
Theorem document_payload_fields path s s' t :
  process_document env path s = (Ok (VBool true), s', t) →
  (∃ data res,
      insert_requests "documents" t = [(data, res)] ∧
      dom data = document_fields) ∧
  Forall (fun r => ∀ data, op r = Insert data →
                           ("created_at" ∉ dom data) ∧
                           ("last_modified" ∉ dom data))
         (backend_requests t) ∧
  (∃ info,
      get_file_info env path s = (Ok info, s, []) ∧
      "created_at" ∈ dom info ∧ "last_modified" ∈ dom info).
Proof.
  intros H.
  apply success_inv in H
    as (st & doc & author & title & description & answer & rest & res & b & id
        & oks & t' & data & Hstat & Hop & Hin & Hdata & Hex & Hid & -> & Hdocs & Hback
        & Hpages & Hoks & Hfiles & Hcl).
  destruct (run_observed path data res t') as (-> & _ & -> & _).
  apply accepted_pages in Hoks as (_ & _ & _ & Hrows).
  split_and!.
  - exists data, res. rewrite Hdocs, Hdata. split; [done|]. apply document_row_fields.
  - constructor.
    + intros d [= <-]. rewrite Hdata. split; by apply not_elem_of_dom.
    + rewrite Hback, Forall_map. eapply Forall_impl; [exact Hrows|].
      intros q (img & n & Hq & _) d [= <-]. rewrite Hq.
      split; by apply not_elem_of_dom.
  - unfold get_file_info, path_stat. rewrite Hstat, bind_ret.
    eexists. split; [reflexivity|]. split; apply elem_of_dom; by eexists.
Qed.

(** C2.  When the backend refuses the insert of page N with an error,
    the run ends with [False]; one Document row and the N - 1 earlier
    Page rows were accepted, N Page inserts were sent in all, every
    request sent is an insert (nothing is deleted or updated), and
    the document handle was closed once. *)
Theorem page_insert_refused path s r s' t row c msg N :
  process_document env path s = (r, s', t) →
  (row, inl (Exception c msg)) ∈ insert_requests "document_pages" t →
  row !! "page_number" = Some (VInt N) →
  r = Ok (VBool false) ∧
  length (rows_inserted "documents" t) = 1%nat ∧
  Z.of_nat (length (rows_inserted "document_pages" t)) = N - 1 ∧
  Z.of_nat (length (insert_requests "document_pages" t)) = N ∧
  Forall (fun q => is_insert q = true) (backend_requests t) ∧
  closes t = 1%nat.
Proof.
  intros H Hin HN.
  apply process_document_inv in H
    as [(_ & _ & _ & ->)|[(st & e & t' & _ & _ & Hpre & _)|
        (st & doc & author & title & description & answer & rest & r2 & t2
         & Hstat & Hmk & Hop & Hstdin & Htry & -> & Hr)]].
  { by apply elem_of_nil in Hin. }
  { apply prologue_prefix in Hpre as (_ & Hpre & _). rewrite Hpre in Hin.
    by apply elem_of_nil in Hin. }
  apply try_summary in Htry
    as (res & b & t' & id & k & oks & last & Hex & -> & H1 & H2 & H3 & H4 & H5 & H).
  destruct (run_observed path
              (document_row path st doc author title description answer) res t')
    as (Ed & Ep & Eb & _ & Ec).
  unfold rows_inserted. rewrite Ed, Ep, Eb, Ec, H1, H2, H3 in *. clear Ed Ep Eb Ec.
  apply accepted_pages in H4 as (Hlen & Hacc & _ & Hrows).
  apply elem_of_app in Hin as [Hin|Hin].
  { rewrite Forall_forall in Hrows. apply Hrows in Hin as (_ & _ & _ & data & ?).
    done. }
  assert (∀ e, stopped doc res id k last e →
            e = Exception c msg ∧ got_id res = Some id ∧ N = Z.of_nat k + 1 ∧
            length last = 1%nat ∧ accepted last = []) as Hstop.
  { intros e [(_ & _ & ->)|(Hid & _ & [->|(img & ->)])];
      [by apply elem_of_nil in Hin..|].
    apply list_elem_of_singleton in Hin. injection Hin as -> <-.
    rewrite page_row_number in HN. injection HN as <-. done. }
  destruct r2 as [[v|]|e].
  - destruct H as (-> & Hcl & c' & msg' & Hs).
    apply Hstop in Hs as (_ & Hid & -> & Hl & Ha).
    rewrite accepted_app, !length_app, Ha, Hacc, length_fmap, Hlen, Hl, Hcl.
    rewrite (got_id_accepted _ _ _ Hid). subst r. cbn [length].
    split_and!; try first [done | lia].
    constructor; [done|]. apply Forall_map. by apply Forall_true.
  - destruct H as (_ & _ & -> & _). by apply elem_of_nil in Hin.
  - destruct H as (_ & Hne & Hs). apply Hstop in Hs as (-> & _).
    by destruct (Hne c msg).
Qed.

(** C6.  Whenever a Document record is submitted, its version is the
    operator's fourth answer, or ["1.0"] when that answer is empty. *)
Theorem version_default path s r s' t data res :
  process_document env path s = (r, s', t) →
  (data, res) ∈ insert_requests "documents" t →
  ∃ author title description answer rest,
    stdin s = author :: title :: description :: answer :: rest ∧
    data !! "version"
      = Some (VStr (if decide (answer = "") then "1.0" else answer)).
Proof.
  intros H Hin.
  apply process_document_inv in H
    as [(_ & _ & _ & ->)|[(st & e & t' & _ & _ & Hpre & _)|
        (st & doc & author & title & description & answer & rest & r2 & t2
         & Hstat & Hmk & Hop & Hstdin & Htry & -> & Hr)]].
  { by apply elem_of_nil in Hin. }
  { apply prologue_prefix in Hpre as (Hpre & _). rewrite Hpre in Hin.
    by apply elem_of_nil in Hin. }
  apply try_summary in Htry
    as (res' & b & t' & id & k & oks & last & Hex & -> & H1 & _).
  destruct (run_observed path
              (document_row path st doc author title description answer) res' t')
    as (Ed & _).
  rewrite Ed, H1 in Hin. apply list_elem_of_singleton in Hin. injection Hin as -> ->.
  exists author, title, description, answer, rest. split; [done|].
  by rewrite <-or_default.
Qed.

End Claims.

(** ** Paths and file metadata *)

Lemma rfind_from_spec c s i last :
  rfind_from c s i last = last ∨
  ∃ n rest, rfind_from c s i last = i + Z.of_nat n ∧
            slice_from n s = String c rest.
Proof.
  revert i last. induction s as [|a s IH]; intros i last; cbn [rfind_from].
  - by left.
  - destruct (IH (i + 1) (if Ascii.eqb a c then i else last))
      as [->|(n & rest & -> & Hn)].
    + destruct (Ascii.eqb_spec a c) as [->|_]; [|by left].
      right. exists 0%nat, s. split; [lia|done].
    + right. exists (S n), rest. split; [lia|done].
Qed.

(** A suffix is empty or starts with the dot. *)
Lemma suffix_dot path :
  pathlib.suffix path = "" ∨ ∃ ext, pathlib.suffix path = String "." ext.
Proof.
  unfold pathlib.suffix. destruct (_ && _) eqn:Hi; [|by left].
  apply andb_prop in Hi as [Hpos _]. apply Z.ltb_lt in Hpos.
  unfold rfind in *.
  destruct (rfind_from_spec "." (pathlib.name path) 0 (-1))
    as [E|(n & rest & E & Hn)]; rewrite E in *; [lia|].
  right. exists rest. by rewrite Z.add_0_l, Nat2Z.id.
Qed.

Lemma lower_slice_from n s : lower (slice_from n s) = slice_from n (lower s).
Proof. revert s. induction n as [|n IH]; intros [|a s]; cbn; auto. Qed.

Section MoreClaims.
Context {backend : Type}.
Variable env : collaborators backend.

(** A missing file: one line printed, [None] returned, nothing else. *)
Lemma process_document_missing path s e :
  os_stat env path = inl e →
  process_document env path s
  = (Ok VNone, s, [Printed ("Error: File " ++ path ++ " not found!")]).
Proof.
  intros He. unfold process_document, os_path_exists.
  rewrite bind_ret, He. reflexivity.
Qed.

Lemma get_file_info_found path s st :
  os_stat env path = inr st →
  get_file_info env path s
  = (Ok (dict_literal [
           ("filename", VStr (pathlib.name path));
           ("file_extension", VStr (slice_from 1 (pathlib.suffix path)));
           ("file_type", VStr (_determine_file_type (pathlib.suffix path)));
           ("size_kb", VInt (st_size st / 1024));
           ("created_at", VStr (isoformat env (st_ctime st)));
           ("last_modified", VStr (isoformat env (st_mtime st)))]),
     s, []).
Proof.
  intros Hst. unfold get_file_info, path_stat. by rewrite Hst, bind_ret.
Qed.

Lemma get_file_info_inv path s info s' t :
  get_file_info env path s = (Ok info, s', t) →
  ∃ st, os_stat env path = inr st.
Proof.
  unfold get_file_info, path_stat.
  destruct (os_stat env path) as [e|st]; [by rewrite bind_raise|eauto].
Qed.



(** C4, as amended.  The [file_extension] field is the suffix of the
    file's name without its leading dot, letters as they are; the
    Document insert carries the same string.  Lower-casing it gives
    the extension the specification describes. *)
Theorem file_extension_keeps_case path s info s' t :
  get_file_info env path s = (Ok info, s', t) →
  ∃ ext,
    info !! "file_extension" = Some (VStr ext) ∧
    (pathlib.suffix path = "" ∧ ext = "" ∨ pathlib.suffix path = String "." ext) ∧
    lower ext = extension_spec path ∧
    ∀ s0 r0 s0' t0 data res,
      process_document env path s0 = (r0, s0', t0) →
      (data, res) ∈ insert_requests "documents" t0 →
      data !! "file_extension" = Some (VStr ext).
Proof.
  intros H. destruct (get_file_info_inv _ _ _ _ _ H) as [st Hst].
  rewrite (get_file_info_found _ _ _ Hst) in H. injection H as <- <- <-.
  exists (slice_from 1 (pathlib.suffix path)). split_and!.
  - reflexivity.
  - destruct (suffix_dot path) as [->|[ext ->]]; [by left|by right].
  - apply lower_slice_from.
  - intros s0 r0 s0' t0 data res H Hin.
    apply process_document_inv in H
      as [(_ & _ & _ & ->)|[(st' & e & t' & _ & _ & Hpre & _)|
          (st' & doc & author & title & description & answer & rest & r2 & t2
           & Hstat & Hmk & Hop & Hstdin & Htry & -> & Hr)]].
    { by apply elem_of_nil in Hin. }
    { apply prologue_prefix in Hpre as (Hpre & _). rewrite Hpre in Hin.
      by apply elem_of_nil in Hin. }
    apply try_summary in Htry
      as (res' & b & t' & id & k & oks & last & Hex & -> & H1 & _).
    destruct (run_observed path
                (document_row path st' doc author title description answer) res' t')
      as (Ed & _).
    rewrite Ed, H1 in Hin. apply list_elem_of_singleton in Hin.
    by injection Hin as -> ->.
Qed.
End MoreClaims.

(** C5.  Classification lower-cases the extension and looks it up in
    the fixed table; what the table does not list is [Other]. *)
Theorem determine_file_type_table (extension : string) :
  _determine_file_type extension = classify_spec extension.
Proof.
  unfold _determine_file_type, classify_spec, dict_literal.
  generalize (lower extension) as k; intros k. simpl fold_left.
  repeat match goal with
  | |- context [String.eqb k ?c] =>
      destruct (String.eqb_spec k c) as [->|?]; [by vm_compute|]
  end.
  rewrite !lookup_insert_ne by done. by rewrite lookup_empty.
Qed.

Example classification_examples :
  _determine_file_type ".pdf" = "PDF" ∧ _determine_file_type ".PDF" = "PDF" ∧
  _determine_file_type ".doc" = "Word" ∧ _determine_file_type ".DocX" = "Word" ∧
  _determine_file_type ".ppt" = "PowerPoint" ∧
  _determine_file_type ".PPTX" = "PowerPoint" ∧
  _determine_file_type "" = "Other" ∧ _determine_file_type ".txt" = "Other" ∧
  _determine_file_type "pdf" = "Other".
Proof. by vm_compute. Qed.

(** C4, as the specification has it, fails: the extension of
    [docs/REPORT.PDF] is stored as [PDF], not [pdf]. *)
Lemma file_extension_not_lowered :
  ¬ (∀ (env : collaborators Sample.store) path s info s' t,
        get_file_info env path s = (Ok info, s', t) →
        info !! "file_extension" = Some (VStr (extension_spec path))).
Proof.
  intros H.
  specialize (H (Sample.world None) "docs/REPORT.PDF" (Sample.start []) _ _ _ eq_refl).
  vm_compute in H. discriminate.
Qed.

(** C3.  For the missing path [nope.pdf] the run prints one line, sends
    nothing, writes nothing, raises nothing, and returns [None], which
    is not the [False] of the other failure path. *)
Theorem missing_path_returns_none :
  ∃ t, process_document (Sample.world None) "nope.pdf" (Sample.start Sample.answers)
       = (Ok VNone, Sample.start Sample.answers, t) ∧
       backend_requests t = [] ∧ files_saved t = [] ∧
       printed t = ["Error: File nope.pdf not found!"] ∧
       VNone ≠ VBool false.
Proof.
  eexists. split; [by eapply process_document_missing|]. done.
Qed.

(** ** The claims on a concrete world *)

Lemma pages_inserted_in_order_witness :
  ∃ doc data res id,
    fitz_open (Sample.world None) "docs/REPORT.PDF" = inr doc ∧
    insert_requests "documents" Sample.good_run.2 = [(data, res)] ∧
    got_id res = Some id ∧
    length (insert_requests "document_pages" Sample.good_run.2) = length doc ∧
    rows_inserted "document_pages" Sample.good_run.2
      = (insert_requests "document_pages" Sample.good_run.2).*1 ∧
    page_key <$> rows_inserted "document_pages" Sample.good_run.2
      = (fun n => (Some id, Some (VInt n))) <$> one_to (length doc).
Proof.
  apply (pages_inserted_in_order (Sample.world None) "docs/REPORT.PDF"
           (Sample.start Sample.answers) Sample.good_run.1.2 Sample.good_run.2).
  by vm_compute.
Defined.

Lemma page_insert_refused_witness :
  Sample.failed_run.1.1 = Ok (VBool false) ∧
  length (rows_inserted "documents" Sample.failed_run.2) = 1%nat ∧
  Z.of_nat (length (rows_inserted "document_pages" Sample.failed_run.2)) = 2 - 1 ∧
  Z.of_nat (length (insert_requests "document_pages" Sample.failed_run.2)) = 2 ∧
  Forall (fun q => is_insert q = true) (backend_requests Sample.failed_run.2) ∧
  closes Sample.failed_run.2 = 1%nat.
Proof.
  apply (page_insert_refused (Sample.world (Some 2)) "docs/REPORT.PDF"
           (Sample.start Sample.answers) Sample.failed_run.1.1 Sample.failed_run.1.2 Sample.failed_run.2
           (page_row (VInt 1) 2 "TWE=") "APIError" "connection reset" 2).
  - by vm_compute.
  - vm_compute. repeat constructor.
  - reflexivity.
Defined.

Lemma version_default_witness :
  ∃ author title description answer rest,
    stdin (Sample.start Sample.answers)
      = author :: title :: description :: answer :: rest ∧
    Sample.report_row !! "version"
      = Some (VStr (if decide (answer = "") then "1.0" else answer)).
Proof.
  apply (version_default (Sample.world None) "docs/REPORT.PDF"
           (Sample.start Sample.answers) Sample.good_run.1.1 Sample.good_run.1.2 Sample.good_run.2
           Sample.report_row (inr [<["id" := VInt 1]> Sample.report_row])).
  - by vm_compute.
  - vm_compute. repeat constructor.
Defined.

Lemma document_payload_fields_witness :
  (∃ data res,
      insert_requests "documents" Sample.good_run.2 = [(data, res)] ∧
      dom data = document_fields) ∧
  Forall (fun r => ∀ data, op r = Insert data →
                           ("created_at" ∉ dom data) ∧
                           ("last_modified" ∉ dom data))
         (backend_requests Sample.good_run.2) ∧
  (∃ info,
      get_file_info (Sample.world None) "docs/REPORT.PDF"
        (Sample.start Sample.answers)
      = (Ok info, Sample.start Sample.answers, []) ∧
      "created_at" ∈ dom info ∧ "last_modified" ∈ dom info).
Proof.
  apply (document_payload_fields (Sample.world None) "docs/REPORT.PDF"
           (Sample.start Sample.answers) Sample.good_run.1.2 Sample.good_run.2).
  by vm_compute.
Defined.




Lemma file_extension_keeps_case_witness :
  ∃ ext,
    Sample.report_info !! "file_extension" = Some (VStr ext) ∧
    (pathlib.suffix "docs/REPORT.PDF" = "" ∧ ext = ""
     ∨ pathlib.suffix "docs/REPORT.PDF" = String "." ext) ∧
    lower ext = extension_spec "docs/REPORT.PDF" ∧
    ∀ s0 r0 s0' t0 data res,
      process_document (Sample.world None) "docs/REPORT.PDF" s0 = (r0, s0', t0) →
      (data, res) ∈ insert_requests "documents" t0 →
      data !! "file_extension" = Some (VStr ext).
Proof.
  apply (file_extension_keeps_case (Sample.world None) "docs/REPORT.PDF"
           (Sample.start []) Sample.report_info (Sample.start []) []).
  by vm_compute.
Defined.

(** The three sizes the specification lists: 2047, 1024 and 1023 bytes
    (the sizes of the three files of the sample world). *)
Example size_kb_examples :
  2047 ÷ 1024 = 1 ∧ 1024 ÷ 1024 = 1 ∧ 1023 ÷ 1024 = 0 ∧
  (∃ info, get_file_info (Sample.world None) "notes.txt" (Sample.start [])
           = (Ok info, Sample.start [], []) ∧
           info !! "size_kb" = Some (VInt 1)) ∧
  (∃ info, get_file_info (Sample.world None) "empty.pdf" (Sample.start [])
           = (Ok info, Sample.start [], []) ∧
           info !! "size_kb" = Some (VInt 0)).
Proof. split_and!; try done; by eexists. Qed.

(** A non-empty answer to the version prompt is stored as it is. *)
Example version_verbatim :
  ∃ data res,
    insert_requests "documents"
      (process_document (Sample.world None) "empty.pdf"
         (Sample.start ["Ada"; "Report"; "Quarterly"; "2.3-beta"])).2
    = [(data, res)] ∧
    data !! "version" = Some (VStr "2.3-beta").
Proof. by eexists _, _. Qed.

(** * Beyond the claims *)

(** ** More on the metadata extractor *)

Lemma slice_to_from n s : slice_to n s ++ slice_from n s = s.
Proof.
  revert s. induction n as [|n IH]; intros [|a s]; try done.
  cbn [slice_to slice_from]. change (String a (slice_to n s ++ slice_from n s) = String a s).
  by rewrite IH.
Qed.

Lemma append_empty s : s ++ "" = s.
Proof.
  induction s as [|a s IH]; [done|].
  change (String a (s ++ "") = String a s). by rewrite IH.
Qed.

Lemma slice_from_length n s :
  String.length (slice_from n s) = (String.length s - n)%nat.
Proof. revert s. induction n as [|n IH]; intros [|a s]; cbn; auto with lia. Qed.

(** [rfind] gives the last occurrence: nothing after it is [c]. *)
Lemma rfind_from_last c s i last :
  rfind_from c s i last = last ∧ without c s = true ∨
  ∃ n rest, rfind_from c s i last = i + Z.of_nat n ∧
            slice_from n s = String c rest ∧ without c rest = true.
Proof.
  revert i last. induction s as [|a s IH]; intros i last; cbn [rfind_from without].
  - by left.
  - destruct (IH (i + 1) (if Ascii.eqb a c then i else last))
      as [[-> Hno]|(n & rest & -> & Hn & Hno)].
    + destruct (Ascii.eqb_spec a c) as [->|_]; [|by left].
      right. exists 0%nat, s. split; [lia|done].
    + right. exists (S n), rest. split; [lia|done].
Qed.

(** The name of a file is its stem followed by its suffix; a suffix,
    when there is one, is a dot and at least one character, none of
    them a dot. *)
Lemma name_stem_suffix path :
  pathlib.name path = pathlib.stem path ++ pathlib.suffix path ∧
  (pathlib.suffix path = "" ∨
   ∃ ext, pathlib.suffix path = String "." ext ∧ ext ≠ "" ∧
          without "." ext = true).
Proof.
  unfold pathlib.stem, pathlib.suffix.
  destruct (_ && _) eqn:Hi.
  2:{ split; [|by left]. by rewrite append_empty. }
  split; [by rewrite slice_to_from|]. right.
  apply andb_prop in Hi as [Hpos Hlen].
  apply Z.ltb_lt in Hpos. apply Z.ltb_lt in Hlen. unfold rfind, len in *.
  destruct (rfind_from_last "." (pathlib.name path) 0 (-1))
    as [[E _]|(n & rest & E & Hn & Hno)]; rewrite E in *; [lia|].
  rewrite Z.add_0_l, Nat2Z.id. exists rest. split_and!; [done| |done].
  intros ->. apply (f_equal String.length) in Hn.
  rewrite slice_from_length in Hn. cbn in Hn. lia.
Qed.

(** X1.  Whatever the extension, the classification is one of the four
    names PDF, Word, PowerPoint and Other. *)
Theorem file_type_closed (extension : string) :
  _determine_file_type extension ∈ file_types.
Proof.
  unfold _determine_file_type, dict_literal, file_types. cbn [fold_left fst snd].
  destruct (_ !! lower extension) as [v|] eqn:E; cbn [default].
  - repeat (apply lookup_insert_Some in E as [[_ <-]|[_ E]];
            [set_solver|]).
    by rewrite lookup_empty in E.
  - set_solver.
Qed.

Section Extractor.
Context {backend : Type}.
Variable env : collaborators backend.


(** X3.  In the dictionary [get_file_info] returns, [filename] is the
    stem used for the image files followed, when the extension is not
    empty, by a dot and [file_extension]; the extension holds no dot,
    and [file_type] is the classification of that dot and extension. *)
Theorem file_name_parts path s info s' t :
  get_file_info env path s = (Ok info, s', t) →
  ∃ ext,
    info !! "file_extension" = Some (VStr ext) ∧
    without "." ext = true ∧
    info !! "filename"
      = Some (VStr (pathlib.stem path ++ (if ext is "" then "" else "." ++ ext))) ∧
    info !! "file_type"
      = Some (VStr (_determine_file_type (if ext is "" then "" else "." ++ ext))).
Proof.
  intros H. destruct (get_file_info_inv _ _ _ _ _ _ H) as [st Hst].
  rewrite (get_file_info_found _ _ _ _ Hst) in H. injection H as <- <- <-.
  exists (slice_from 1 (pathlib.suffix path)).
  destruct (name_stem_suffix path) as [Hname [Hs|(ext & Hs & Hne & Hno)]].
  - rewrite Hs in *. by rewrite Hname.
  - rewrite Hs in *. cbn [slice_from]. destruct ext as [|a ext]; [done|].
    by rewrite Hname.
Qed.
End Extractor.

(** ** The console *)

Lemma prompts_app t1 t2 : prompts (t1 ++ t2) = (prompts t1 ++ prompts t2)%list.
Proof. apply omap_app. Qed.

Section Console.
Context {backend : Type}.
Variable env : collaborators backend.

Lemma quiet_ret {A} (a : A) : quiet (backend:=backend) (ret a).
Proof. by intros s r s' t [= <- <- <-]. Qed.

Lemma quiet_raise {A} e : quiet (backend:=backend) (A:=A) (raise e).
Proof. by intros s r s' t [= <- <- <-]. Qed.

Lemma quiet_bind {A B} (m : M backend A) (f : A → M backend B) :
  quiet m → (∀ a, quiet (f a)) → quiet (bind m f).
Proof.
  intros Hm Hf s r s' t H.
  apply bind_inv in H as [(a & s1 & t1 & t2 & H1 & H2 & ->)|(e & H1 & ->)].
  - apply Hm in H1 as [E1 P1]. apply Hf in H2 as [E2 P2].
    by rewrite prompts_app, P1, P2, E2, E1.
  - by apply Hm in H1.
Qed.

Lemma quiet_try {A} (m : M backend A) h :
  quiet m → (∀ e, quiet (h e)) → quiet (try_except m h).
Proof.
  intros Hm Hh s r s' t H.
  apply try_except_inv in H as [(c & msg & s1 & t1 & t2 & H1 & H2 & ->)|[H1 _]].
  - apply Hm in H1 as [E1 P1]. apply Hh in H2 as [E2 P2].
    by rewrite prompts_app, P1, P2, E2, E1.
  - by apply Hm in H1.
Qed.

Lemma quiet_for_each {A} (xs : list A) (body : A → M backend unit) :
  (∀ x, quiet (body x)) → quiet (for_each xs body).
Proof.
  intros Hb. induction xs as [|x xs IH]; [apply quiet_ret|].
  cbn [for_each]. apply quiet_bind; [apply Hb|done].
Qed.

Lemma quiet_print line : quiet (backend:=backend) (print line).
Proof. by intros s r s' t [= <- <- <-]. Qed.

Lemma quiet_execute q : quiet (supabase_execute env q).
Proof.
  intros s r s' t. unfold supabase_execute.
  destruct (execute env (db s) q) as [[e|rows] b]; by intros [= <- <- <-].
Qed.

Lemma quiet_getitem d k : quiet (backend:=backend) (getitem d k).
Proof. unfold getitem. destruct (d !! k); [apply quiet_ret|apply quiet_raise]. Qed.

Lemma quiet_first_row rows : quiet (backend:=backend) (first_row rows).
Proof. destruct rows; [apply quiet_raise|apply quiet_ret]. Qed.

Lemma quiet_process_page doc out base id pc n :
  quiet (process_page env doc out base id pc n).
Proof.
  unfold process_page. apply quiet_bind.
  { unfold doc_getitem. repeat case_match; first [apply quiet_ret|apply quiet_raise]. }
  intros page. apply quiet_bind.
  { unfold page_get_pixmap. case_match; first [apply quiet_ret|apply quiet_raise]. }
  intros pix. apply quiet_bind.
  { unfold pix_save. case_match; [apply quiet_raise|].
    by intros s r s' t [= <- <- <-]. }
  intros _. apply quiet_bind.
  { intros s r s' t. unfold read_file. case_match; by intros [= <- <- <-]. }
  intros img. apply quiet_bind; [apply quiet_execute|]. intros _. apply quiet_print.
Qed.

Lemma quiet_try_statement path doc out data :
  quiet (try_except (insert_all env path doc out data) on_error).
Proof.
  apply quiet_try.
  - unfold insert_all.
    apply quiet_bind; [apply quiet_execute|]; intros rows.
    apply quiet_bind; [apply quiet_first_row|]; intros row.
    apply quiet_bind; [apply quiet_getitem|]; intros id.
    apply quiet_bind; [apply quiet_for_each; intros n; apply quiet_process_page|].
    intros _. apply quiet_bind; [by intros s r s' t [= <- <- <-]|].
    intros _. apply quiet_bind; [apply quiet_print|]. intros _. apply quiet_ret.
  - intros e. unfold on_error.
    apply quiet_bind; [apply quiet_print|]; intros _.
    apply quiet_bind; [by intros s r s' t [= <- <- <-]|]. intros _. apply quiet_ret.
Qed.

Lemma quiet_print_document doc : quiet (backend:=backend) (print_document doc).
Proof.
  unfold print_document.
  repeat first [apply quiet_bind; [first [apply quiet_getitem|apply quiet_print]|intros ?]
               | apply quiet_print].
Qed.

Lemma quiet_list_documents : quiet (list_documents env).
Proof.
  unfold list_documents. apply quiet_try; [|intros e; apply quiet_print].
  apply quiet_bind; [apply quiet_execute|]. intros [|doc docs]; [apply quiet_print|].
  apply quiet_bind; [apply quiet_print|]; intros _.
  apply quiet_bind; [apply quiet_print|]; intros _.
  apply quiet_for_each. intros d. apply quiet_print_document.
Qed.

Lemma quiet_reads {A} (m : M backend A) : quiet m → reads m.
Proof.
  intros Hm s r s' t H. apply Hm in H as [E _]. exists []. split; [by rewrite E|].
  cbn. lia.
Qed.

Lemma reads_bind {A B} (m : M backend A) (f : A → M backend B) :
  reads m → (∀ a, reads (f a)) → reads (bind m f).
Proof.
  intros Hm Hf s r s' t H.
  apply bind_inv in H as [(a & s1 & t1 & t2 & H1 & H2 & ->)|(e & H1 & ->)].
  - apply Hm in H1 as (u1 & E1 & L1). apply Hf in H2 as (u2 & E2 & L2).
    exists (u1 ++ u2)%list. rewrite E1, E2, prompts_app, !length_app, (assoc_L _).
    split; [done|lia].
  - by apply Hm in H1.
Qed.

Lemma reads_input prompt : reads (backend:=backend) (input prompt).
Proof.
  intros s r s' t H. apply input_inv in H as [-> H]. destruct r as [line|e].
  - destruct H as (rest & E & ->). exists [line]. by rewrite E.
  - destruct H as [_ ->]. exists []. split; [done|]. cbn. lia.
Qed.

Lemma reads_process_document path : reads (process_document env path).
Proof.
  unfold process_document.
  apply reads_bind; [apply quiet_reads, quiet_ret|]. intros [|]; cbn [negb].
  2:{ apply quiet_reads, quiet_bind; [apply quiet_print|]. intros _. apply quiet_ret. }
  apply reads_bind.
  { apply quiet_reads. unfold get_file_info, path_stat.
    apply quiet_bind; [case_match; [apply quiet_raise|apply quiet_ret]|].
    intros st. apply quiet_ret. }
  intros info. apply reads_bind.
  { apply quiet_reads. unfold path_mkdir. case_match; [apply quiet_raise|].
    by intros s r s' t [= <- <- <-]. }
  intros _. apply reads_bind.
  { apply quiet_reads. unfold open_document. case_match; [apply quiet_raise|].
    apply quiet_bind; [by intros s r s' t [= <- <- <-]|]. intros _. apply quiet_ret. }
  intros doc.
  do 4 (apply reads_bind; [apply reads_input|]; intros ?).
  do 4 (apply reads_bind; [apply quiet_reads, quiet_getitem|]; intros ?).
  apply reads_bind; [apply quiet_reads, quiet_try_statement|].
  intros [v|]; apply quiet_reads, quiet_ret.
Qed.
End Console.

(** ** A successful ingestion, effect by effect *)

Section Pages.
Context {backend : Type}.
Variable env : collaborators backend.

(** A completed iteration, in full. *)
Lemma process_page_ok doc base id n s u s' t :
  process_page env doc "output" base id (Z.of_nat (length doc)) (Z.of_nat n) s
  = (Ok u, s', t) →
  ∃ page item,
    doc !! n = Some page ∧ page_jpeg page = Some item.1 ∧
    t = page_events base id (length doc) n item.
Proof.
  unfold process_page. intros H.
  apply bind_inv in H as [(page & s1 & t1 & t2 & H1 & H & ->)|(e & H1 & ?)];
    [|done].
  assert (doc !! n = Some page ∧ s1 = s ∧ t1 = []) as (Hpage & -> & ->).
  { unfold doc_getitem in H1.
    assert ((Z.of_nat n <? 0) = false) as Hneg by (apply Z.ltb_ge; lia).
    rewrite Hneg in H1. cbv zeta in H1. rewrite Nat2Z.id in H1.
    destruct (_ && _); [|done].
    destruct (doc !! n); unfold ret, raise in H1; by simplify_eq. }
  clear H1. cbn [app].
  apply bind_inv in H as [(pix & s1 & t1 & t2' & H1 & H & ->)|(e & H1 & ?)];
    [|done].
  unfold page_get_pixmap in H1.
  destruct (get_pixmap page) as [|pix'] eqn:Hpix; [done|].
  injection H1 as <- <- <-. cbn [app].
  apply bind_inv in H as [([] & s1 & t1 & t2 & H1 & H & ->)|(e & H1 & ?)];
    [|done].
  unfold pix_save in H1. destruct (save pix') as [|content] eqn:Hsave; [done|].
  injection H1 as <- <-.
  apply bind_inv in H as [(img & s1 & t1 & t2' & H1 & H & ->)|(e & H1 & ?)];
    [|done].
  unfold read_file in H1. cbn in H1. rewrite lookup_insert_eq in H1.
  injection H1 as <- <- <-.
  apply bind_inv in H as [(rows & s1 & t1 & t2 & H1 & H & ->)|(e & H1 & ?)];
    [|done].
  unfold supabase_execute in H1. cbn in H1.
  destruct (execute env _ _) as [[e|data] b]; [done|].
  injection H1 as <- <- <-. unfold print, emit in H. injection H as <- <- <-.
  exists page, (content, data). unfold page_jpeg. rewrite Hpix, Hsave.
  by split_and!.
Qed.

Lemma page_loop_ok doc base id a k s u s' t :
  for_each (Z.of_nat <$> seq a k)
    (process_page env doc "output" base id (Z.of_nat (length doc))) s
  = (Ok u, s', t) →
  ∃ items,
    Forall2 (fun n item => ∃ page, doc !! n = Some page ∧
                                   page_jpeg page = Some item.1)
            (seq a k) items ∧
    t = concat (zip_with (page_events base id (length doc)) (seq a k) items).
Proof.
  revert a s t. induction k as [|k IH]; intros a s t H.
  - injection H as <- <- <-. exists []. by split; [constructor|].
  - cbn [seq fmap list_fmap for_each] in H.
    apply bind_inv in H as [([] & s1 & t1 & t2 & H1 & H & ->)|(e & _ & ?)];
      [|done].
    apply process_page_ok in H1 as (page & item & Hpage & Hjpeg & ->).
    apply IH in H as (items & Hitems & ->).
    exists (item :: items). split; [constructor; eauto|done].
Qed.

Lemma insert_all_ok path doc data s v s' t :
  insert_all env path doc "output" data s = (Ok v, s', t) →
  ∃ res b id items,
    execute env (db s) (document_request data) = (res, b) ∧
    got_id res = Some id ∧
    Forall2 (fun page item => page_jpeg page = Some item.1) doc items ∧
    t = (Executed (document_request data) res
         :: concat (zip_with (page_events (pathlib.stem path) id (length doc))
                             (seq 0 (length doc)) items)
         ++ [Closed; Printed (success_line id)])%list.
Proof.
  unfold insert_all. intros H.
  apply bind_inv in H as [(rows & s1 & t1 & t2 & H1 & H & ->)|(e & _ & ?)];
    [|done].
  unfold supabase_execute in H1.
  destruct (execute env (db s) _) as [[e'|rows'] b] eqn:Hex; [done|].
  injection H1 as <- <- <-.
  destruct rows' as [|row rows]; unfold first_row in H;
    [by rewrite bind_raise in H|].
  rewrite bind_ret in H. unfold getitem in H.
  destruct (row !! "id") as [id|] eqn:Hid; [|by rewrite bind_raise in H].
  rewrite bind_ret in H.
  apply bind_inv in H as [([] & s2 & t1 & t3 & H1 & H & ->)|(e & _ & ?)];
    [|done].
  apply page_loop_ok in H1 as (items & Hitems & ->).
  unfold doc_close, print, emit, bind, ret in H. injection H as <- <- <-.
  exists (inr (row :: rows)), b, id, items. split_and!; try done.
  apply Forall2_same_length_lookup. split.
  { apply Forall2_length in Hitems. by rewrite length_seq in Hitems. }
  intros i page item Hp Hi.
  eapply Forall2_lookup_r in Hitems as (n & Hn & page' & Hp' & Hj); [|exact Hi].
  apply lookup_seq in Hn as [-> _]. cbn in Hp'. by simplify_eq.
Qed.
End Pages.

(** What a sequence of completed iterations shows. *)
Lemma page_events_observed base id total ns items :
  length ns = length items →
  let t := concat (zip_with (page_events base id total) ns items) in
  files_saved t = image_path base <$> ns ∧
  contents_saved t = items.*1 ∧
  printed t = progress_line total <$> ns ∧
  insert_requests "documents" t = [] ∧
  (fun row => row !! "page_image") <$> rows_inserted "document_pages" t
    = (fun content => Some (VStr (base64.b64encode content))) <$> items.*1.
Proof.
  revert items. induction ns as [|n ns IH]; intros [|item items] Hlen;
    try done.
  injection Hlen as Hlen.
  destruct (IH items Hlen) as (IH1 & IH2 & IH3 & IH4 & IH5).
  cbn -[page_events] in *.
  unfold rows_inserted, files_saved, contents_saved, printed, insert_requests,
    accepted in *.
  rewrite !omap_app. cbn. by rewrite IH1, IH2, IH3, IH4, IH5.
Qed.

Lemma opened_app t1 t2 : opened (t1 ++ t2) = (opened t1 ++ opened t2)%list.
Proof. apply omap_app. Qed.

Lemma contents_saved_app t1 t2 :
  contents_saved (t1 ++ t2) = (contents_saved t1 ++ contents_saved t2)%list.
Proof. apply omap_app. Qed.

Lemma one_to_S k : one_to (S k) = (one_to k ++ [Z.of_nat k + 1])%list.
Proof. unfold one_to. by rewrite seq_S, map_app. Qed.

(** What a trace of the shape of a successful run shows. *)
Lemma success_observed path data res mid line :
  let t := (prologue path ++ Executed (document_request data) res
            :: mid ++ [Closed; Printed line])%list in
  files_saved t = files_saved mid ∧
  contents_saved t = contents_saved mid ∧
  printed t = (printed mid ++ [line])%list ∧
  rows_inserted "document_pages" t = rows_inserted "document_pages" mid ∧
  insert_requests "documents" t
    = (data, res) :: insert_requests "documents" mid.
Proof.
  unfold rows_inserted, files_saved, contents_saved, printed, insert_requests.
  cbn. rewrite !omap_app. cbn. by rewrite !app_nil_r.
Qed.

Section Ingestion.
Context {backend : Type}.
Variable env : collaborators backend.

(** A successful run is this sequence of effects. *)
Lemma success_trace path s s' t :
  process_document env path s = (Ok (VBool true), s', t) →
  ∃ st doc author title description answer rest res id items,
    os_stat env path = inr st ∧ fitz_open env path = inr doc ∧
    stdin s = author :: title :: description :: answer :: rest ∧
    got_id res = Some id ∧
    Forall2 (fun page item => page_jpeg page = Some item.1) doc items ∧
    t = (prologue path
         ++ Executed (document_request
                        (document_row path st doc author title description answer))
                     res
         :: concat (zip_with (page_events (pathlib.stem path) id (length doc))
                             (seq 0 (length doc)) items)
         ++ [Closed; Printed (success_line id)])%list.
Proof.
  intros H.
  apply process_document_inv in H
    as [(_ & ? & _)|[(st & e & t' & _ & ? & _)|
        (st & doc & author & title & description & answer & rest & r2 & t2
         & Hstat & Hmk & Hop & Hstdin & Htry & -> & Hr)]]; [done..|].
  apply try_except_inv in Htry as [(c & msg & s1 & t1 & t3 & _ & Hh & ->)|[Htry _]].
  { injection Hh as <- <- <-. done. }
  destruct r2 as [v|e]; [|done].
  apply insert_all_ok in Htry as (res & b & id & items & Hex & Hid & Hitems & ->).
  by exists st, doc, author, title, description, answer, rest, res, id, items.
Qed.

(** X4.  A successful ingestion writes one image file per page, in page
    order, named [output/<stem>-p<N>.jpg] with N from 1. *)
Theorem image_files_written path s s' t :
  process_document env path s = (Ok (VBool true), s', t) →
  ∃ doc, fitz_open env path = inr doc ∧
         files_saved t = image_path (pathlib.stem path) <$> seq 0 (length doc).
Proof.
  intros H. apply success_trace in H
    as (st & doc & author & title & description & answer & rest & res & id & items
        & _ & Hop & _ & _ & Hitems & ->).
  exists doc. split; [done|].
  destruct (page_events_observed (pathlib.stem path) id (length doc)
              (seq 0 (length doc)) items) as (Hf & _).
  { apply Forall2_length in Hitems. by rewrite length_seq. }
  by destruct (success_observed path
                 (document_row path st doc author title description answer) res
                 (concat (zip_with (page_events (pathlib.stem path) id (length doc))
                                   (seq 0 (length doc)) items))
                 (success_line id)) as (-> & _).
Qed.

(** X5.  In a successful ingestion the bytes written are the JPEG of
    each page in order, and the [page_image] of the k-th Page row is
    the base64 text of the k-th file written. *)
Theorem page_images_encoded path s s' t :
  process_document env path s = (Ok (VBool true), s', t) →
  ∃ doc contents,
    fitz_open env path = inr doc ∧
    Forall2 (fun page content => page_jpeg page = Some content) doc contents ∧
    contents_saved t = contents ∧
    (fun row => row !! "page_image") <$> rows_inserted "document_pages" t
      = (fun content => Some (VStr (base64.b64encode content))) <$> contents.
Proof.
  intros H. apply success_trace in H
    as (st & doc & author & title & description & answer & rest & res & id & items
        & _ & Hop & _ & _ & Hitems & ->).
  exists doc, items.*1. split; [done|].
  destruct (page_events_observed (pathlib.stem path) id (length doc)
              (seq 0 (length doc)) items) as (_ & Hc & _ & _ & Hrows).
  { apply Forall2_length in Hitems. by rewrite length_seq. }
  destruct (success_observed path
              (document_row path st doc author title description answer) res
              (concat (zip_with (page_events (pathlib.stem path) id (length doc))
                                (seq 0 (length doc)) items))
              (success_line id)) as (_ & -> & _ & Hp & _).
  split_and!.
  - by apply Forall2_fmap_r.
  - done.
  - by rewrite Hp.
Qed.

(** X6.  A successful ingestion prints one progress line per page,
    "Processed page N of P" for N from 1 to P, and then the success
    line with the document id the backend returned; nothing else. *)
Theorem progress_report path s s' t :
  process_document env path s = (Ok (VBool true), s', t) →
  ∃ doc data res id,
    fitz_open env path = inr doc ∧
    insert_requests "documents" t = [(data, res)] ∧ got_id res = Some id ∧
    printed t
    = ((progress_line (length doc) <$> seq 0 (length doc))
       ++ [success_line id])%list.
Proof.
  intros H. apply success_trace in H
    as (st & doc & author & title & description & answer & rest & res & id & items
        & _ & Hop & _ & Hid & Hitems & ->).
  exists doc, (document_row path st doc author title description answer), res, id.
  destruct (page_events_observed (pathlib.stem path) id (length doc)
              (seq 0 (length doc)) items) as (_ & _ & Hpr & Hd & _).
  { apply Forall2_length in Hitems. by rewrite length_seq. }
  destruct (success_observed path
              (document_row path st doc author title description answer) res
              (concat (zip_with (page_events (pathlib.stem path) id (length doc))
                                (seq 0 (length doc)) items))
              (success_line id)) as (_ & _ & -> & _ & ->).
  by rewrite Hpr, Hd.
Qed.





(** X10.  In every run the Page inserts sent are for pages 1, 2, ..., m
    in this order, each once and all with the same document id; all of
    them were accepted, except possibly the last; m is at most the
    page count, and equals it when the run returns [True]. *)
Theorem page_inserts_form_a_prefix path s r s' t :
  process_document env path s = (r, s', t) →
  ∃ id k m,
    page_key <$> (insert_requests "document_pages" t).*1
      = (fun n => (Some id, Some (VInt n))) <$> one_to m ∧
    rows_inserted "document_pages" t
      = take k (insert_requests "document_pages" t).*1 ∧
    (m = k ∨ m = S k) ∧
    (∀ doc, fitz_open env path = inr doc → (m ≤ length doc)%nat) ∧
    (r = Ok (VBool true) →
     ∀ doc, fitz_open env path = inr doc → k = length doc).
Proof.
  intros H.
  apply process_document_inv in H
    as [(_ & -> & _ & ->)|[(st & e & t' & _ & -> & Hpre & _)|
        (st & doc & author & title & description & answer & rest & r2 & t2
         & Hstat & Hmk & Hop & Hstdin & Htry & -> & Hr)]].
  { exists VNone, 0%nat, 0%nat. split_and!; first [done | lia | by left]. }
  { apply prologue_prefix in Hpre as (_ & Hp & _). unfold rows_inserted.
    rewrite Hp. exists VNone, 0%nat, 0%nat. split_and!; first [done | lia | by left]. }
  apply try_summary in Htry
    as (res & b & t' & id & k & oks & last & Hex & -> & H1 & H2 & H3 & H4 & H5 & H).
  destruct (run_observed path
              (document_row path st doc author title description answer) res t')
    as (_ & Ep & _).
  unfold rows_inserted. rewrite Ep, H3. clear Ep.
  apply accepted_pages in H4 as (Hlen & Hacc & Hkeys & _).
  assert (∀ e, stopped doc res id k last e →
            ∃ m, page_key <$> ((oks ++ last)%list).*1
                 = (fun n => (Some id, Some (VInt n))) <$> one_to m ∧
                 accepted (oks ++ last)%list = take k ((oks ++ last)%list).*1 ∧
                 (m = k ∨ m = S k) ∧ (m ≤ length doc)%nat) as Hstop.
  { intros e [(_ & -> & ->)|(_ & Hlt & [->|(img & ->)])].
    - exists 0%nat. apply nil_length_inv in Hlen as ->.
      split_and!; first [done | lia | by left].
    - exists k. rewrite app_nil_r, Hacc, Hkeys, <-Hlen, <-(length_fmap fst), firstn_all.
      rewrite length_fmap. split_and!; first [done | lia | by left].
    - exists (S k). rewrite accepted_app, fmap_app, fmap_app, Hkeys, Hacc, one_to_S.
      rewrite fmap_app, take_app_length' by by rewrite length_fmap.
      cbn. rewrite app_nil_r. split_and!; first [done | lia | by right]. }
  exists id, k.
  destruct r2 as [[v|]|e].
  - destruct H as (-> & _ & c & msg & Hs).
    destruct (Hstop _ Hs) as (m & ? & ? & ? & ?). exists m. subst r.
    split_and!; try done. intros doc' Hop'. rewrite Hop in Hop'. simplify_eq. first [done|lia].
  - destruct H as (_ & -> & -> & _). exists (length doc).
    rewrite app_nil_r, Hacc, Hkeys, <-Hlen, <-(length_fmap fst), firstn_all.
    rewrite length_fmap.
    split_and!; try done; [by left| |intros _];
      intros doc' Hop'; rewrite Hop in Hop'; simplify_eq; first [done|lia].
  - destruct H as (_ & _ & Hs).
    destruct (Hstop _ Hs) as (m & ? & ? & ? & ?). exists m. subst r.
    split_and!; try done. intros doc' Hop'. rewrite Hop in Hop'. simplify_eq. first [done|lia].
Qed.

(** X11.  In every run all the requests sent to the backend are
    inserts, at most one of them into [documents]; a Page insert is
    sent only after the Document insert was answered with an id; and
    an [Exception] that leaves the call was raised before any request. *)
Theorem only_inserts_document_first path s r s' t :
  process_document env path s = (r, s', t) →
  Forall (fun q => is_insert q = true) (backend_requests t) ∧
  (length (insert_requests "documents" t) ≤ 1)%nat ∧
  (insert_requests "document_pages" t ≠ [] →
   ∃ data res id,
     insert_requests "documents" t = [(data, res)] ∧ got_id res = Some id) ∧
  (∀ c msg, r = Raise (Exception c msg) → backend_requests t = []).
Proof.
  intros H.
  apply process_document_inv in H
    as [(_ & -> & _ & ->)|[(st & e & t' & _ & -> & Hpre & _)|
        (st & doc & author & title & description & answer & rest & r2 & t2
         & Hstat & Hmk & Hop & Hstdin & Htry & -> & Hr)]].
  { split_and!; try done. cbn. lia. }
  { apply prologue_prefix in Hpre as (Hd & Hp & Hb & _).
    rewrite Hd, Hp, Hb. split_and!; try done. cbn. lia. }
  apply try_summary in Htry
    as (res & b & t' & id & k & oks & last & Hex & -> & H1 & H2 & H3 & H4 & H5 & H).
  destruct (run_observed path
              (document_row path st doc author title description answer) res t')
    as (Ed & Ep & Eb & _).
  rewrite Ed, Ep, Eb, H1, H2. clear Ed Ep Eb. split_and!.
  - constructor; [done|]. apply Forall_map. by apply Forall_true.
  - done.
  - intros Hne. eexists _, res, id. split; [done|].
    rewrite H3 in Hne. destruct r2 as [[v|]|e].
    + destruct H as (_ & _ & c & msg & [(_ & -> & ->)|(? & _)]); [|done].
      apply Forall2_nil_inv_l in H4 as ->. done.
    + by destruct H as (? & _).
    + destruct H as (_ & _ & [(_ & -> & ->)|(? & _)]); [|done].
      apply Forall2_nil_inv_l in H4 as ->. done.
  - intros c msg Hrr. rewrite Hrr in Hr. destruct r2 as [[v|]|e]; try done.
    destruct H as (_ & Hne & _). injection Hr as <-. by destruct (Hne c msg).
Qed.

(** X12.  A call reads at most four lines from the console: none when
    the file is missing, exactly four when it returns a boolean. *)
Theorem answers_consumed path s r s' t :
  process_document env path s = (r, s', t) →
  ∃ used,
    stdin s = (used ++ stdin s')%list ∧ (length used ≤ 4)%nat ∧
    match r with
    | Ok VNone => used = []
    | Ok _ => length used = 4%nat
    | Raise _ => True
    end.
Proof.
  intros H. pose proof (reads_process_document env path _ _ _ _ H) as (used & Hu & Hl).
  apply process_document_inv in H
    as [(_ & -> & -> & ->)|[(st & e & t' & _ & -> & Hpre & _)|
        (st & doc & author & title & description & answer & rest & r2 & t2
         & Hstat & Hmk & Hop & Hstdin & Htry & -> & Hr)]].
  { exists []. split_and!; [done|cbn; lia|done]. }
  { exists used. split_and!; try done.
    apply (f_equal prompts) in Hpre. rewrite prompts_app in Hpre.
    apply (f_equal length) in Hpre. rewrite length_app in Hpre. cbn in Hpre. lia. }
  pose proof (quiet_try_statement env _ _ _ _ _ _ _ _ Htry) as [Hq _].
  cbn [stdin] in Hq.
  exists [author; title; description; answer]. rewrite Hq, Hstdin.
  split_and!; [done|cbn; lia|].
  apply try_summary in Htry
    as (res & b & t' & id & k & oks & last & _ & _ & _ & _ & _ & _ & _ & H).
  destruct r2 as [[v|]|e]; subst r; try done. by destruct H as (-> & _).
Qed.

(** X13.  The document handle is closed exactly once when the call
    returns a boolean, and not at all when it returns [None] or
    raises. *)
Theorem handle_closed_with_the_result path s r s' t :
  process_document env path s = (r, s', t) →
  closes t = (if r is Ok (VBool _) then 1 else 0)%nat.
Proof.
  intros H.
  apply process_document_inv in H
    as [(_ & -> & _ & ->)|[(st & e & t' & _ & -> & Hpre & _)|
        (st & doc & author & title & description & answer & rest & r2 & t2
         & Hstat & Hmk & Hop & Hstdin & Htry & -> & Hr)]].
  { done. }
  { by apply prologue_prefix in Hpre as (_ & _ & _ & _ & _ & ->). }
  apply try_summary in Htry
    as (res & b & t' & id & k & oks & last & _ & -> & _ & Hb & _ & _ & _ & H).
  destruct (run_observed path
              (document_row path st doc author title description answer) res t')
    as (_ & _ & _ & _ & ->).
  destruct r2 as [[v|]|e]; subst r.
  - by destruct H as (-> & -> & _).
  - by destruct H as (_ & _ & _ & ->).
  - by destruct H as (-> & _).
Qed.
End Ingestion.

(** ** Listing the documents *)

Lemma printed_lines lines : printed (Printed <$> lines) = lines.
Proof.
  induction lines as [|l lines IH]; [done|].
  change (l :: printed (Printed <$> lines) = l :: lines). by rewrite IH.
Qed.

Lemma lines_observed q res lines :
  let t := Executed q res :: (Printed <$> lines) in
  printed t = lines ∧ backend_requests t = [q] ∧ files_saved t = [] ∧
  prompts t = [].
Proof.
  change (printed (Printed <$> lines) = lines ∧
          q :: backend_requests (Printed <$> lines) = [q] ∧
          files_saved (Printed <$> lines) = [] ∧
          prompts (Printed <$> lines) = []).
  rewrite printed_lines. split_and!; try done;
    induction lines as [|l lines IH]; try done; cbn; by f_equal.
Qed.


Section Listing.
Context {backend : Type}.
Variable env : collaborators backend.

(** One row of the listing: the whole block when the row has the four
    fields, else the lines before the first missing one and a
    [KeyError]. *)
Lemma print_document_inv doc (s : state backend) r s' t :
  print_document doc s = (r, s', t) →
  s' = s ∧
  match r with
  | Ok _ => printable doc ∧ t = Printed <$> document_block doc
  | Raise e =>
      ¬ printable doc ∧ (∃ k, e = Exception "KeyError" k) ∧
      ∃ n, (n < 4)%nat ∧ t = Printed <$> take n (document_block doc)
  end.
Proof.
  unfold print_document, printable, document_block, getitem.
  destruct (doc !! "id") as [id|].
  2:{ rewrite bind_raise. intros [= <- <- <-]. split; [done|].
      split_and!; [by intros ([? ?] & _)|by eexists|]. exists 0%nat. split; [lia|done]. }
  rewrite bind_ret. unfold bind at 1, print at 1, emit at 1.
  destruct (doc !! "title") as [title|].
  2:{ rewrite bind_raise. intros [= <- <- <-]. split; [done|].
      split_and!; [by intros (_ & [? ?] & _)|by eexists|].
      exists 1%nat. split; [lia|done]. }
  rewrite bind_ret. unfold bind at 1, print at 1, emit at 1.
  destruct (doc !! "author") as [author|].
  2:{ rewrite bind_raise. intros [= <- <- <-]. split; [done|].
      split_and!; [by intros (_ & _ & [? ?] & _)|by eexists|].
      exists 2%nat. split; [lia|done]. }
  rewrite bind_ret. unfold bind at 1, print at 1, emit at 1.
  destruct (doc !! "page_count") as [pc|].
  2:{ rewrite bind_raise. intros [= <- <- <-]. split; [done|].
      split_and!; [by intros (_ & _ & _ & [? ?])|by eexists|].
      exists 3%nat. split; [lia|done]. }
  rewrite bind_ret. unfold bind, print, emit. intros [= <- <- <-].
  split; [done|]. split; [|done]. by split_and!.
Qed.

(** The loop of the listing: full blocks up to the first row that
    lacks a field. *)
Lemma print_documents_inv docs (s : state backend) r s' t :
  for_each docs print_document s = (r, s', t) →
  s' = s ∧
  match r with
  | Ok _ =>
      Forall printable docs ∧
      t = Printed <$> concat (document_block <$> docs)
  | Raise e =>
      (∃ k, e = Exception "KeyError" k) ∧
      ∃ good bad rest n,
        docs = (good ++ bad :: rest)%list ∧ Forall printable good ∧
        ¬ printable bad ∧ (n < 4)%nat ∧
        t = Printed <$> (concat (document_block <$> good)
                         ++ take n (document_block bad))%list
  end.
Proof.
  revert s t. induction docs as [|doc docs IH]; intros s t H.
  - injection H as <- <- <-. by split_and!.
  - cbn [for_each] in H.
    apply bind_inv in H as [([] & s1 & t1 & t2 & H1 & H & ->)|(e & H1 & ->)].
    + apply print_document_inv in H1 as (-> & Hdoc & ->).
      apply IH in H as (-> & H). split; [done|]. destruct r as [u|e].
      * destruct H as (Hdocs & ->). split; [by constructor|].
        by rewrite fmap_cons, concat_cons, fmap_app.
      * destruct H as (Hk & good & bad & rest & n & -> & Hgood & Hbad & Hn & ->).
        split; [done|]. exists (doc :: good), bad, rest, n.
        split_and!; try done; by constructor.
    + apply print_document_inv in H1 as (-> & Hbad & Hk & n & Hn & ->).
      split; [done|]. split; [done|]. exists [], doc, docs, n. by split_and!.
Qed.

(** [list_documents], case by case on what the backend answers. *)
Lemma list_documents_inv s r s' t :
  list_documents env s = (r, s', t) →
  ∃ res lines,
    s' = {| stdin := stdin s; disk := disk s;
            db := (execute env (db s) select_all).2 |} ∧
    (execute env (db s) select_all).1 = res ∧
    t = Executed select_all res :: (Printed <$> lines) ∧
    match res with
    | inl (Exception c msg) =>
        r = Ok tt ∧ lines = ["Error listing documents: " ++ msg]
    | inl e => r = Raise e ∧ lines = []
    | inr [] =>
        r = Ok tt ∧ lines = [nl ++ "No documents found in the database."]
    | inr docs =>
        r = Ok tt ∧
        ((Forall printable docs ∧
          lines = (listing_header ++ concat (document_block <$> docs))%list)
         ∨ ∃ good bad rest n line,
             docs = (good ++ bad :: rest)%list ∧ Forall printable good ∧
             ¬ printable bad ∧ (n < 4)%nat ∧
             lines = (listing_header ++ concat (document_block <$> good)
                      ++ take n (document_block bad) ++ [line])%list)
    end.
Proof.
  unfold list_documents, try_except, bind at 1, supabase_execute.
  fold select_all. destruct (execute env (db s) select_all) as [[e|docs] b].
  - destruct e as [c msg|c msg]; intros [= <- <- <-].
    + by exists (inl (Exception c msg)), ["Error listing documents: " ++ msg].
    + by exists (inl (BaseException c msg)), [].
  - destruct docs as [|doc docs].
    { intros [= <- <- <-].
      by exists (inr []), [nl ++ "No documents found in the database."]. }
    set (s1 := {| stdin := stdin s; disk := disk s; db := b |}).
    unfold bind at 1, print at 1, emit at 1.
    unfold bind at 1, print at 1, emit at 1.
    destruct (for_each (doc :: docs) print_document s1) as [[r1 s2] t1] eqn:Hloop.
    apply print_documents_inv in Hloop as (-> & Hloop).
    destruct r1 as [[]|e].
    + destruct Hloop as (Hdocs & ->). intros [= <- <- <-].
      exists (inr (doc :: docs)),
        (listing_header ++ concat (document_block <$> doc :: docs))%list.
      split_and!; try done. by left.
    + destruct Hloop as ([k ->] & good & bad & rest & n & Hd & Hgood & Hbad & Hn & ->).
      intros [= <- <- <-].
      exists (inr (doc :: docs)),
        (listing_header ++ concat (document_block <$> good)
         ++ take n (document_block bad)
         ++ [("Error listing documents: " ++ k)%string])%list.
      split_and!; try done.
      { cbn. by rewrite !fmap_app, <-!(assoc_L _). }
      right. by exists good, bad, rest, n, ("Error listing documents: " ++ k).
Qed.

(** X14.  [list_documents] sends exactly one request, the selection of
    all columns of [documents]; it writes no file, reads nothing from
    the console, and no [Exception] leaves it. *)
Theorem listing_is_read_only s r s' t :
  list_documents env s = (r, s', t) →
  backend_requests t = [select_all] ∧ files_saved t = [] ∧ prompts t = [] ∧
  stdin s' = stdin s ∧ disk s' = disk s ∧
  ∀ c msg, r ≠ Raise (Exception c msg).
Proof.
  intros H. apply list_documents_inv in H as (res & lines & -> & Hres & -> & H).
  destruct (lines_observed select_all res lines) as (_ & -> & -> & ->).
  split_and!; try done. intros c msg ->.
  destruct res as [[c' msg'|c' msg']|[|doc docs]]; by destruct H.
Qed.

(** X15.  What [list_documents] prints, by the backend's answer: the
    error line for an [Exception]; the no-documents line for an empty
    result; otherwise, when every row has the four fields, the header,
    the separator and one five-line block per row, in the order
    returned. *)
Theorem listing_output s r s' t :
  list_documents env s = (r, s', t) →
  match (execute env (db s) select_all).1 with
  | inl (Exception c msg) =>
      r = Ok tt ∧ printed t = ["Error listing documents: " ++ msg]
  | inl e => r = Raise e ∧ printed t = []
  | inr [] =>
      r = Ok tt ∧ printed t = [nl ++ "No documents found in the database."]
  | inr docs =>
      r = Ok tt ∧
      (Forall printable docs →
       printed t = (listing_header ++ concat (document_block <$> docs))%list)
  end.
Proof.
  intros H. apply list_documents_inv in H as (res & lines & -> & Hres & -> & H).
  rewrite Hres. destruct (lines_observed select_all res lines) as (-> & _).
  clear Hres. destruct res as [[c msg|c msg]|[|doc docs]]; try done.
  destruct H as [-> [[_ ->]|(good & bad & rest & n & line & Hd & _ & Hbad & _)]];
    [done|].
  split; [done|]. intros Hall. rewrite Hd in Hall.
  apply Forall_app in Hall as [_ Hall]. by apply Forall_cons in Hall as [? _].
Qed.

End Listing.

(** ** The menu loop *)

Section Menu.
Context {backend : Type}.
Variable env : collaborators backend.

Lemma display_menu_inv (s : state backend) r s' t :
  display_menu s = (r, s', t) →
  t = menu ∧
  match r with
  | Ok choice =>
      ∃ rest, stdin s = choice :: rest ∧
              s' = {| stdin := rest; disk := disk s; db := db s |}
  | Raise e =>
      stdin s = [] ∧ s' = s ∧ e = Exception "EOFError" "EOF when reading a line"
  end.
Proof.
  unfold display_menu, bind, print, emit, input.
  destruct (stdin s) as [|choice rest] eqn:Hs; intros [= <- <- <-]; eauto.
Qed.




(** One turn of the loop reads at least the choice. *)
Lemma reads_display_menu : reads (backend:=backend) display_menu.
Proof.
  unfold display_menu.
  repeat (apply reads_bind; [apply quiet_reads, quiet_print|intros _]).
  apply reads_input.
Qed.

(** The loop ends within as many turns as there are lines to read, and
    one more. *)
Lemma main_loop_ends fuel s r s' t :
  main_loop env fuel s = (r, s', t) →
  (length (stdin s) < fuel)%nat →
  r ≠ Ok None.
Proof.
  revert s r s' t. induction fuel as [|fuel IH]; intros s r s' t H Hlen; [lia|].
  cbn [main_loop] in H.
  apply bind_inv in H as [(choice & s1 & t1 & t2 & H1 & H & ->)|(e & _ & ->)];
    [|done].
  apply display_menu_inv in H1 as (-> & rest & Hs & ->).
  rewrite Hs in Hlen. cbn in Hlen.
  destruct (String.eqb choice "1").
  { apply bind_inv in H as [(path & s1 & t1 & t3 & H1 & H & ->)|(e & _ & ->)];
      [|done].
    apply reads_input in H1 as (u1 & E1 & _). cbn [stdin] in E1.
    apply bind_inv in H as [(v & s2 & t4 & t5 & H2 & H & ->)|(e & _ & ->)];
      [|done].
    apply reads_process_document in H2 as (u2 & E2 & _).
    eapply IH; [exact H|]. rewrite E1, E2, !length_app in Hlen. lia. }
  destruct (String.eqb choice "2").
  { apply bind_inv in H as [([] & s1 & t1 & t3 & H1 & H & ->)|(e & _ & ->)];
      [|done].
    apply quiet_list_documents in H1 as [E1 _]. cbn [stdin] in E1.
    eapply IH; [exact H|]. rewrite E1. lia. }
  destruct (String.eqb choice "3").
  { unfold bind, print, emit, ret in H. by injection H as <- _ _. }
  apply bind_inv in H as [([] & s1 & t1 & t3 & H1 & H & ->)|(e & _ & ->)];
    [|done].
  injection H1 as <- _. eapply IH; [exact H|]. cbn. lia.
Qed.

(** More fuel does not change a run that ended. *)
Lemma main_loop_stable fuel fuel' s r s' t :
  main_loop env fuel s = (r, s', t) →
  r ≠ Ok None →
  (fuel ≤ fuel')%nat →
  main_loop env fuel' s = (r, s', t).
Proof.
  revert fuel' s r s' t.
  induction fuel as [|fuel IH]; intros fuel' s r s' t H Hr Hle.
  { by injection H as <- _ _. }
  destruct fuel' as [|fuel']; [lia|]. cbn [main_loop] in *.
  unfold bind at 1 in H. unfold bind at 1.
  destruct (display_menu s) as [[[choice|e] s1] t1]; [|done].
  destruct (String.eqb choice "1").
  { unfold bind at 1 in H. unfold bind at 1.
    destruct (input _ s1) as [[[path|e] s2] t2]; [|done].
    unfold bind at 1 in H. unfold bind at 1.
    destruct (process_document env path s2) as [[[v|e] s3] t3]; [|done].
    destruct (main_loop env fuel s3) as [[r4 s4] t4] eqn:H4.
    injection H as <- <- <-.
    by rewrite (IH fuel' _ _ _ _ H4 Hr ltac:(lia)). }
  destruct (String.eqb choice "2").
  { unfold bind at 1 in H. unfold bind at 1.
    destruct (list_documents env s1) as [[[v|e] s3] t3]; [|done].
    destruct (main_loop env fuel s3) as [[r4 s4] t4] eqn:H4.
    injection H as <- <- <-.
    by rewrite (IH fuel' _ _ _ _ H4 Hr ltac:(lia)). }
  destruct (String.eqb choice "3"); [done|].
  unfold bind at 1 in H. unfold bind at 1. unfold print, emit in *.
  destruct (main_loop env fuel s1) as [[r4 s4] t4] eqn:H4.
  injection H as <- <- <-.
  by rewrite (IH fuel' _ _ _ _ H4 Hr ltac:(lia)).
Qed.

(** The loop is left by [break] only after option 3 was read, and the
    farewell is the last line printed. *)
Lemma main_loop_break fuel s s' t :
  main_loop env fuel s = (Ok (Some tt), s', t) →
  "3" ∈ stdin s ∧ last (printed t) = Some goodbye.
Proof.
  revert s s' t. induction fuel as [|fuel IH]; intros s s' t H; [done|].
  cbn [main_loop] in H.
  apply bind_inv in H as [(choice & s1 & t1 & t2 & H1 & H & ->)|(e & _ & ?)];
    [|done].
  apply display_menu_inv in H1 as (-> & rest & Hs & ->).
  rewrite Hs, printed_app.
  assert (∀ (u : list string) s2 t3,
            stdin {| stdin := rest; disk := disk s; db := db s |}
              = (u ++ stdin s2)%list →
            main_loop env fuel s2 = (Ok (Some tt), s', t3) →
            ∀ t0, "3" ∈ choice :: rest ∧
                  last (printed menu ++ printed (t0 ++ t3)) = Some goodbye)
    as Hnext.
  { intros u s2 t3 Hu H3 t0. apply IH in H3 as [Hin Hlast]. cbn [stdin] in Hu.
    split; [rewrite Hu; apply elem_of_cons; right; apply elem_of_app; by right|].
    rewrite printed_app, !(assoc_L _). rewrite last_app, Hlast. done. }
  destruct (String.eqb_spec choice "1") as [->|_].
  { apply bind_inv in H as [(path & s1 & t1 & t3 & H1 & H & ->)|(e & _ & ?)];
      [|done].
    apply reads_input in H1 as (u1 & E1 & _).
    apply bind_inv in H as [(v & s2 & t4 & t5 & H2 & H & ->)|(e & _ & ?)];
      [|done].
    apply reads_process_document in H2 as (u2 & E2 & _).
    rewrite (assoc_L _). eapply (Hnext (u1 ++ u2)%list); [|exact H].
    by rewrite E1, E2, (assoc_L _). }
  destruct (String.eqb_spec choice "2") as [->|_].
  { apply bind_inv in H as [([] & s1 & t1 & t3 & H1 & H & ->)|(e & _ & ?)];
      [|done].
    apply quiet_list_documents in H1 as [E1 _].
    eapply (Hnext []); [|exact H]. by rewrite E1. }
  destruct (String.eqb_spec choice "3") as [->|_].
  { unfold bind, print, emit, ret in H. injection H as <- <-.
    split; [by constructor|done]. }
  apply bind_inv in H as [([] & s1 & t1 & t3 & H1 & H & ->)|(e & _ & ?)];
    [|done].
  injection H1 as <- <-. by eapply (Hnext []); [|exact H].
Qed.


End Menu.

(** X17.  On a finite input the program ends: with more turns allowed
    than there are lines to read, [main] is not cut short, and allowing
    still more turns changes nothing. *)
Theorem main_terminates {backend} (new_manager : exn + collaborators backend)
    fuel s :
  (length (stdin s) < fuel)%nat →
  ∃ r s' t,
    main new_manager fuel s = (r, s', t) ∧ r ≠ Ok None ∧
    ∀ fuel', (fuel ≤ fuel')%nat → main new_manager fuel' s = (r, s', t).
Proof.
  intros Hlen. destruct new_manager as [e|manager]; cbn [main].
  { by exists (Raise e), s, []. }
  destruct (main_loop manager fuel s) as [[r s'] t] eqn:H.
  exists r, s', t. pose proof (main_loop_ends manager _ _ _ _ _ H Hlen) as Hr.
  split_and!; try done. intros fuel' Hle. by eapply main_loop_stable.
Qed.

(** X18.  [main] returns only if the line "3" was on the input, and
    the farewell is then the last line printed. *)
Theorem main_returns_only_after_exit_choice {backend}
    (new_manager : exn + collaborators backend) fuel s s' t :
  main new_manager fuel s = (Ok (Some tt), s', t) →
  "3" ∈ stdin s ∧ last (printed t) = Some goodbye.
Proof.
  destruct new_manager as [e|manager]; cbn [main]; [done|].
  apply main_loop_break.
Qed.

(** X19.  On a finite input without the line "3", [main] ends by
    raising: the end of the input, or an error of an upload, reaches
    the top level. *)
Theorem main_without_exit_choice_raises {backend}
    (new_manager : exn + collaborators backend) fuel s :
  "3" ∉ stdin s →
  (length (stdin s) < fuel)%nat →
  ∃ e s' t, main new_manager fuel s = (Raise e, s', t).
Proof.
  intros Hno Hlen. destruct new_manager as [e|manager]; cbn [main].
  { by exists e, s, []. }
  destruct (main_loop manager fuel s) as [[[[[]|]|e] s'] t] eqn:H.
  - by apply main_loop_break in H as [? _].
  - by apply main_loop_ends in H.
  - by exists e, s', t.
Qed.

(** ** Beyond the claims, on concrete worlds *)


Lemma file_name_parts_witness :
  ∃ ext,
    Sample.report_info !! "file_extension" = Some (VStr ext) ∧
    without "." ext = true ∧
    Sample.report_info !! "filename"
      = Some (VStr (pathlib.stem "docs/REPORT.PDF"
                    ++ (if ext is "" then "" else "." ++ ext))) ∧
    Sample.report_info !! "file_type"
      = Some (VStr (_determine_file_type (if ext is "" then "" else "." ++ ext))).
Proof.
  apply (file_name_parts (Sample.world None) "docs/REPORT.PDF"
           (Sample.start []) Sample.report_info (Sample.start []) []).
  by vm_compute.
Defined.

Lemma image_files_written_witness :
  ∃ doc, fitz_open (Sample.world None) "docs/REPORT.PDF" = inr doc ∧
         files_saved Sample.good_run.2
         = image_path (pathlib.stem "docs/REPORT.PDF") <$> seq 0 (length doc).
Proof.
  apply (image_files_written (Sample.world None) "docs/REPORT.PDF"
           (Sample.start Sample.answers) Sample.good_run.1.2 Sample.good_run.2).
  by vm_compute.
Defined.

Lemma page_images_encoded_witness :
  ∃ doc contents,
    fitz_open (Sample.world None) "docs/REPORT.PDF" = inr doc ∧
    Forall2 (fun page content => page_jpeg page = Some content) doc contents ∧
    contents_saved Sample.good_run.2 = contents ∧
    (fun row => row !! "page_image")
      <$> rows_inserted "document_pages" Sample.good_run.2
    = (fun content => Some (VStr (base64.b64encode content))) <$> contents.
Proof.
  apply (page_images_encoded (Sample.world None) "docs/REPORT.PDF"
           (Sample.start Sample.answers) Sample.good_run.1.2 Sample.good_run.2).
  by vm_compute.
Defined.

Lemma progress_report_witness :
  ∃ doc data res id,
    fitz_open (Sample.world None) "docs/REPORT.PDF" = inr doc ∧
    insert_requests "documents" Sample.good_run.2 = [(data, res)] ∧
    got_id res = Some id ∧
    printed Sample.good_run.2
    = ((progress_line (length doc) <$> seq 0 (length doc))
       ++ [success_line id])%list.
Proof.
  apply (progress_report (Sample.world None) "docs/REPORT.PDF"
           (Sample.start Sample.answers) Sample.good_run.1.2 Sample.good_run.2).
  by vm_compute.
Defined.




Lemma page_inserts_form_a_prefix_witness :
  ∃ id k m,
    page_key <$> (insert_requests "document_pages" Sample.failed_run.2).*1
      = (fun n => (Some id, Some (VInt n))) <$> one_to m ∧
    rows_inserted "document_pages" Sample.failed_run.2
      = take k (insert_requests "document_pages" Sample.failed_run.2).*1 ∧
    (m = k ∨ m = S k) ∧
    (∀ doc, fitz_open (Sample.world (Some 2)) "docs/REPORT.PDF" = inr doc →
            (m ≤ length doc)%nat) ∧
    (Sample.failed_run.1.1 = Ok (VBool true) →
     ∀ doc, fitz_open (Sample.world (Some 2)) "docs/REPORT.PDF" = inr doc →
            k = length doc).
Proof.
  apply (page_inserts_form_a_prefix (Sample.world (Some 2)) "docs/REPORT.PDF"
           (Sample.start Sample.answers) Sample.failed_run.1.1
           Sample.failed_run.1.2 Sample.failed_run.2).
  by vm_compute.
Defined.

Lemma only_inserts_document_first_witness :
  Forall (fun q => is_insert q = true) (backend_requests Sample.failed_run.2) ∧
  (length (insert_requests "documents" Sample.failed_run.2) ≤ 1)%nat ∧
  (insert_requests "document_pages" Sample.failed_run.2 ≠ [] →
   ∃ data res id,
     insert_requests "documents" Sample.failed_run.2 = [(data, res)] ∧
     got_id res = Some id) ∧
  (∀ c msg, Sample.failed_run.1.1 = Raise (Exception c msg) →
            backend_requests Sample.failed_run.2 = []).
Proof.
  apply (only_inserts_document_first (Sample.world (Some 2)) "docs/REPORT.PDF"
           (Sample.start Sample.answers) Sample.failed_run.1.1
           Sample.failed_run.1.2 Sample.failed_run.2).
  by vm_compute.
Defined.

Lemma answers_consumed_witness :
  ∃ used,
    stdin (Sample.start Sample.answers)
      = (used ++ stdin Sample.good_run.1.2)%list ∧
    (length used ≤ 4)%nat ∧ length used = 4%nat.
Proof.
  apply (answers_consumed (Sample.world None) "docs/REPORT.PDF"
           (Sample.start Sample.answers) (Ok (VBool true))
           Sample.good_run.1.2 Sample.good_run.2).
  by vm_compute.
Defined.

Lemma handle_closed_with_the_result_witness :
  closes Sample.failed_run.2 = 1%nat.
Proof.
  apply (handle_closed_with_the_result (Sample.world (Some 2)) "docs/REPORT.PDF"
           (Sample.start Sample.answers) (Ok (VBool false))
           Sample.failed_run.1.2 Sample.failed_run.2).
  by vm_compute.
Defined.

Lemma listing_is_read_only_witness :
  backend_requests Scenario.listing.2 = [select_all] ∧
  files_saved Scenario.listing.2 = [] ∧ prompts Scenario.listing.2 = [] ∧
  stdin Scenario.listing.1.2
    = stdin (Scenario.holding [Scenario.row_1; Scenario.row_3] []) ∧
  disk Scenario.listing.1.2
    = disk (Scenario.holding [Scenario.row_1; Scenario.row_3] []) ∧
  ∀ c msg, Scenario.listing.1.1 ≠ Raise (Exception c msg).
Proof.
  apply (listing_is_read_only (Sample.world None)
           (Scenario.holding [Scenario.row_1; Scenario.row_3] [])
           Scenario.listing.1.1 Scenario.listing.1.2 Scenario.listing.2).
  by vm_compute.
Defined.

Lemma listing_output_witness :
  Scenario.listing.1.1 = Ok tt ∧
  (Forall printable [Scenario.row_1; Scenario.row_3] →
   printed Scenario.listing.2
   = (listing_header
      ++ concat (document_block <$> [Scenario.row_1; Scenario.row_3]))%list).
Proof.
  apply (listing_output (Sample.world None)
           (Scenario.holding [Scenario.row_1; Scenario.row_3] [])
           Scenario.listing.1.1 Scenario.listing.1.2 Scenario.listing.2).
  by vm_compute.
Defined.


Lemma main_terminates_witness :
  ∃ r s' t,
    main (inr (Sample.world None)) 12 (Sample.start Scenario.session)
    = (r, s', t) ∧ r ≠ Ok None ∧
    ∀ fuel', (12 ≤ fuel')%nat →
             main (inr (Sample.world None)) fuel' (Sample.start Scenario.session)
             = (r, s', t).
Proof.
  apply (main_terminates (inr (Sample.world None)) 12
           (Sample.start Scenario.session)).
  cbn. lia.
Defined.

Lemma main_returns_only_after_exit_choice_witness :
  "3" ∈ stdin (Sample.start Scenario.session) ∧
  last (printed Scenario.session_run.2) = Some goodbye.
Proof.
  apply (main_returns_only_after_exit_choice (inr (Sample.world None)) 12
           (Sample.start Scenario.session)
           Scenario.session_run.1.2 Scenario.session_run.2).
  by vm_compute.
Defined.

Lemma main_without_exit_choice_raises_witness :
  ∃ e s' t,
    main (inr (Sample.world None)) 4 (Sample.start ["1"; "nope.pdf"; "7"])
    = (Raise e, s', t).
Proof.
  apply (main_without_exit_choice_raises (inr (Sample.world None)) 4
           (Sample.start ["1"; "nope.pdf"; "7"])).
  - cbn. repeat (apply not_elem_of_cons; split; [done|]). apply not_elem_of_nil.
  - cbn. lia.
Defined.


